(** * Tuxemon save games: [tuxemon/core/save.py]

    A shallow embedding of the save-game module: the decoded save record
    (a JSON-like tree), the corruption-tolerant reader [open_save_file],
    the version-0 migration [upgrade_save], [load] and
    [get_index_of_latest_save], the writer [save] and [get_save_data],
    followed by the properties of the specification that concern them.
    The module is read as Python 3 runs it. *)

From Stdlib Require Import ZArith List String Ascii Bool Lia.
From Stdlib Require Import Floats.SpecFloat DecimalString.
From Stdlib Require DecimalZ DecimalPos.
Import ListNotations.

Local Open Scope string_scope.
Local Open Scope Z_scope.

(* ===================================================================== *)
(** ** Python values and exceptions *)
(* ===================================================================== *)

(** What [json.load] / [cbor.load] hand back: [None], booleans, integers
    of any size, floats, text, lists and dicts.  A dict keeps its keys in
    insertion order and holds every key once, so it is an association
    list that [dict_set] updates in place. *)
#[warnings="-register-all"]
Inductive value : Type :=
| VNone
| VBool (b : bool)
| VInt (z : Z)
| VFloat (f : spec_float)
| VStr (s : string)
| VList (l : list value)
| VDict (d : list (string * value)).

Definition dict : Type := list (string * value).

(** The exception classes the module catches or lets escape.  A class
    stands for its subclasses too ([ValueError] covers the JSON decode
    error and a text-decoding error of [read]).  [EOFError] is what the
    [cbor] library raises when there is nothing left to read. *)
Inductive exn : Type :=
| ValueError
| IOError
| KeyError
| TypeError
| AttributeError
| NameError
| EOFError
| OtherError (name : string).

Inductive outcome (A : Type) : Type :=
| Return (a : A)
| Raise (e : exn).

Arguments Return {A} a.
Arguments Raise {A} e.

Definition bind {A B : Type} (m : outcome A) (k : A -> outcome B) : outcome B :=
  match m with
  | Return a => k a
  | Raise e => Raise e
  end.

Notation "x <- m ;; k" := (bind m (fun x => k))
  (at level 61, m at next level, right associativity).

Definition is_ValueError (e : exn) : bool :=
  match e with ValueError => true | _ => false end.

Definition is_IOError (e : exn) : bool :=
  match e with IOError => true | _ => false end.

(** [try: m  except <class>: h] *)
Definition try_except {A : Type} (m : outcome A) (cls : exn -> bool)
    (h : outcome A) : outcome A :=
  match m with
  | Return a => Return a
  | Raise e => if cls e then h else Raise e
  end.

Fixpoint mapM {A B : Type} (f : A -> outcome B) (l : list A) : outcome (list B) :=
  match l with
  | [] => Return []
  | a :: r => b <- f a ;; bs <- mapM f r ;; Return (b :: bs)
  end.

(* --------------------------------------------------------------------- *)
(** *** Dicts *)

(** [d.get(k)], [None] when the key is absent. *)
Fixpoint dict_get (k : string) (d : dict) : option value :=
  match d with
  | [] => None
  | (k', v) :: r => if (k' =? k)%string then Some v else dict_get k r
  end.

(** [d.get(k, default)] *)
Definition dict_get_default (k : string) (default : value) (d : dict) : value :=
  match dict_get k d with
  | Some v => v
  | None => default
  end.

(** [d[k] = v]: an existing key keeps its place, a new one goes last. *)
Fixpoint dict_set (k : string) (v : value) (d : dict) : dict :=
  match d with
  | [] => [(k, v)]
  | (k', v') :: r =>
      if (k' =? k)%string then (k', v) :: r else (k', v') :: dict_set k v r
  end.

Definition dict_has (k : string) (d : dict) : bool :=
  match dict_get k d with Some _ => true | None => false end.

(** [obj[k]] with a text key: a dict looks it up, a list or a string
    wants an integer index, the rest cannot be subscripted. *)
Definition py_getitem (obj : value) (k : string) : outcome value :=
  match obj with
  | VDict d =>
      match dict_get k d with
      | Some v => Return v
      | None => Raise KeyError
      end
  | _ => Raise TypeError
  end.

(** [obj[k] = v] with a text key. *)
Definition py_setitem (obj : value) (k : string) (v : value) : outcome value :=
  match obj with
  | VDict d => Return (VDict (dict_set k v d))
  | _ => Raise TypeError
  end.

(* --------------------------------------------------------------------- *)
(** *** Truth and equality with an integer *)

Definition float_is_zero (f : spec_float) : bool :=
  match f with S754_zero _ => true | _ => false end.

(** [float == n] for an integer [n]: exact comparison. *)
Definition float_eq_int (f : spec_float) (n : Z) : bool :=
  match f with
  | S754_zero _ => n =? 0
  | S754_finite s m e =>
      let sm := if s then Z.neg m else Z.pos m in
      if 0 <=? e then sm * 2 ^ e =? n else sm =? n * 2 ^ (- e)
  | _ => false
  end.

(** [v == n] for an integer literal [n]. *)
Definition py_eq_int (v : value) (n : Z) : bool :=
  match v with
  | VInt z => z =? n
  | VBool b => (if b then 1 else 0) =? n
  | VFloat f => float_eq_int f n
  | _ => false
  end.

(** [if v:] *)
Definition truthy (v : value) : bool :=
  match v with
  | VNone => false
  | VBool b => b
  | VInt z => negb (z =? 0)
  | VFloat f => negb (float_is_zero f)
  | VStr s => negb (s =? "")%string
  | VList l => match l with [] => false | _ => true end
  | VDict d => match d with [] => false | _ => true end
  end.

Definition is_None (v : value) : bool :=
  match v with VNone => true | _ => false end.

(* --------------------------------------------------------------------- *)
(** *** [str.partition] *)

(** [s.partition(sep)] for a one-character separator: the text before
    the first [sep], the separator, the text after it; when [sep] does
    not occur, [s] and two empty strings. *)
Fixpoint partition (sep : ascii) (s : string) : string * string * string :=
  match s with
  | EmptyString => ("", "", "")
  | String c r =>
      if Ascii.eqb c sep then ("", String sep "", r)
      else
        match partition sep r with
        | (_, EmptyString, _) => (s, "", "")
        | (h, m, t) => (String c h, m, t)
        end
  end.

(** [x.partition(sep)[2]] *)
Definition partition_2 (sep : ascii) (s : string) : string :=
  snd (partition sep s).

Fixpoint contains (c : ascii) (s : string) : bool :=
  match s with
  | EmptyString => false
  | String c' r => Ascii.eqb c' c || contains c r
  end.

(* ===================================================================== *)
(** ** [upgrade_save] *)
(* ===================================================================== *)

(** The local function [fix_items]: a dict comprehension over
    [data.items()], so a later key that is rewritten to the same name
    overwrites the earlier entry. *)
Definition fix_items (data : value) : outcome value :=
  match data with
  | VDict d =>
      Return (VDict (fold_left
                       (fun acc kv => dict_set (partition_2 "_" (fst kv)) (snd kv) acc)
                       d []))
  | _ => Raise AttributeError
  end.

(** The body of the inner loop: [mon['slug'] = mon['slug'].partition("_")[2]]. *)
Definition fix_mon (mon : value) : outcome value :=
  slug <- py_getitem mon "slug" ;;
  match slug with
  | VStr s => py_setitem mon "slug" (VStr (partition_2 "_" s))
  | _ => Raise AttributeError
  end.

(** [for mon in mons: ...]: a list yields its elements; an empty string
    or dict yields nothing; a non-empty one yields strings, on which
    [mon['slug']] is a type error; anything else cannot be iterated. *)
Definition fix_mons (mons : value) : outcome value :=
  match mons with
  | VList l => l' <- mapM fix_mon l ;; Return (VList l')
  | VStr EmptyString => Return mons
  | VDict [] => Return mons
  | _ => Raise TypeError
  end.

(** Store [v] back under [k] when the object was taken from [d] (it was
    mutated in place); a default that [get] made up is dropped. *)
Definition write_back (k : string) (v : value) (d : dict) : dict :=
  if dict_has k d then dict_set k v d else d.

Definition upgrade_save (save_data : value) : outcome value :=
  match save_data with
  | VDict sd =>
      let version := dict_get_default "version" (VInt 0) sd in
      if py_eq_int version 0 then
        let chest := dict_get_default "storage" (VDict []) sd in
        inventory <- fix_items (dict_get_default "inventory" (VDict []) sd) ;;
        let sd1 := dict_set "inventory" inventory sd in
        match chest with
        | VDict ch =>
            items <- fix_items (dict_get_default "items" (VDict []) ch) ;;
            let ch1 := dict_set "items" items ch in
            let mons_top := dict_get_default "monsters" (VList []) sd1 in
            let mons_chest := dict_get_default "monsters" (VList []) ch1 in
            mons_top' <- fix_mons mons_top ;;
            mons_chest' <- fix_mons mons_chest ;;
            let sd2 := write_back "monsters" mons_top' sd1 in
            let ch2 := write_back "monsters" mons_chest' ch1 in
            Return (VDict (write_back "storage" (VDict ch2) sd2))
        | _ => Raise AttributeError
        end
      else Return save_data
  | _ => Raise AttributeError
  end.

(* ===================================================================== *)
(** ** [get_save_data] *)
(* ===================================================================== *)

(** The record that is written: the player's state as the game hands it
    over, the screenshot (encoded by the graphics code) with its size,
    the clock's time already in [TIME_FORMAT], and the version. *)
Definition get_save_data (state : dict) (screenshot : string)
    (width height : Z) (now : string) : dict :=
  let save_data := dict_set "screenshot" (VStr screenshot) state in
  let save_data := dict_set "screenshot_width" (VInt width) save_data in
  let save_data := dict_set "screenshot_height" (VInt height) save_data in
  let save_data := dict_set "time" (VStr now) save_data in
  dict_set "version" (VInt 1) save_data.

(* ===================================================================== *)
(** ** The world outside the module *)
(* ===================================================================== *)

(** What the module reads from its surroundings: the configured
    [prepare.SAVE_PATH]; what [open(path, 'r')] gives for a path, the
    text of the file or the exception that [open] raises ([IOError] for
    a file that is not there or cannot be read, [ValueError] for a path
    with a NUL character in it); the JSON decoder; and the CBOR decoder
    when [import cbor] succeeded ([None]: the name [cbor] is unbound). *)
Record Env : Type := {
  SAVE_PATH : string;
  fs : string -> outcome string;
  json_loads : string -> outcome value;
  cbor_loads : option (string -> outcome value)
}.

(** An open file: its text and how much of it has been read. *)
Record file : Type := {
  contents : string;
  position : nat
}.

Definition unread (f : file) : string :=
  substring f.(position) (String.length f.(contents) - f.(position)) f.(contents).

(** [f.read()]: everything up to the end of the file. *)
Definition read (f : file) : string * file :=
  (unread f, {| contents := f.(contents); position := String.length f.(contents) |}).

(** [str(n)] for an integer. *)
Definition str (n : Z) : string := NilZero.string_of_int (Z.to_int n).

(** ['{}{}.save'.format(prepare.SAVE_PATH, slot)] *)
Definition save_path_of (base : string) (slot : Z) : string :=
  base ++ str slot ++ ".save".

Section Reader.

Variable env : Env.

(** [open(save_path, 'r')] *)
Definition open_ (save_path : string) : outcome file :=
  text <- env.(fs) save_path ;;
  Return {| contents := text; position := 0 |}.

(** [json.load(fp)] is [json.loads(fp.read())]. *)
Definition json_load (fp : file) : outcome value * file :=
  let (text, fp') := read fp in (env.(json_loads) text, fp').

(** [cbor.load(fp)] decodes what is still unread in [fp]. *)
Definition cbor_load (fp : file) : outcome value :=
  match env.(cbor_loads) with
  | Some loads => loads (unread fp)
  | None => Raise NameError
  end.

Definition open_save_file (save_path : string) : outcome value :=
  try_except
    (save_file <- open_ save_path ;;
     let (decoded, save_file') := json_load save_file in
     try_except decoded is_ValueError
       (try_except (cbor_load save_file') is_ValueError
          (Return (VDict []))))
    is_IOError
    (Return VNone).

Definition load (slot : Z) : outcome value :=
  let save_path := save_path_of env.(SAVE_PATH) slot in
  save_data <- open_save_file save_path ;;
  if truthy save_data then upgrade_save save_data
  else if is_None save_data then Return VNone
  else
    save_data1 <- py_setitem save_data "error" (VStr "Save file corrupted") ;;
    save_data2 <- py_setitem save_data1 "player_name" (VStr "BROKEN SAVE!") ;;
    Return save_data2.

End Reader.

(* ===================================================================== *)
(** ** [datetime.datetime.strptime] for [TIME_FORMAT] *)
(* ===================================================================== *)

(** The standard library turns ["%Y-%m-%d %H:%M"] into the regular
    expression
    [(\d\d\d\d)-(1[0-2]|0[1-9]|[1-9])-(3[0-1]|[1-2]\d|0[1-9]|[1-9]| [1-9])\s+(2[0-3]|[0-1]\d|\d):([0-5]\d|\d)],
    matches it at the start of the text, refuses text left over, and
    builds a [datetime] with no seconds and no microseconds, which
    checks the calendar.  A matcher lists the
    ways a pattern can match a prefix, in the order the regular
    expression engine tries them.  Text is ASCII here. *)

Record datetime : Type := {
  year : Z;
  month : Z;
  day : Z;
  hour : Z;
  minute : Z;
  second : Z;
  microsecond : Z
}.

Definition matcher (A : Type) : Type := string -> list (A * string).

Definition digit_of (c : ascii) : option Z :=
  let n := Z.of_nat (nat_of_ascii c) in
  if (48 <=? n) && (n <=? 57) then Some (n - 48) else None.

(** One digit between [lo] and [hi]: [[lo-hi]]. *)
Definition digit_in (lo hi : Z) : matcher Z := fun s =>
  match s with
  | String c r =>
      match digit_of c with
      | Some d => if (lo <=? d) && (d <=? hi) then [(d, r)] else []
      | None => []
      end
  | EmptyString => []
  end.

Definition lit (c : ascii) : matcher unit := fun s =>
  match s with
  | String c' r => if Ascii.eqb c' c then [(tt, r)] else []
  | EmptyString => []
  end.

Definition alt {A : Type} (p q : matcher A) : matcher A := fun s => (p s ++ q s)%list.

Definition then_ {A B C : Type} (p : matcher A) (q : matcher B) (f : A -> B -> C)
    : matcher C := fun s =>
  flat_map (fun ar => map (fun br => (f (fst ar) (fst br), snd br)) (q (snd ar))) (p s).

Definition two_digits (lo1 hi1 lo2 hi2 : Z) : matcher Z :=
  then_ (digit_in lo1 hi1) (digit_in lo2 hi2) (fun a b => 10 * a + b).

Definition is_space (c : ascii) : bool :=
  let n := nat_of_ascii c in
  (Nat.eqb n 32 || (Nat.leb 9 n && Nat.leb n 13) || (Nat.leb 28 n && Nat.leb n 31))%bool.

(** [\s*], longest match first. *)
Fixpoint spaces_star (s : string) : list (unit * string) :=
  match s with
  | String c r => if is_space c then (spaces_star r ++ [(tt, s)])%list else [(tt, s)]
  | EmptyString => [(tt, s)]
  end.

(** [\s+] *)
Definition spaces_plus : matcher unit := fun s =>
  match s with
  | String c r => if is_space c then spaces_star r else []
  | EmptyString => []
  end.

Definition re_Y : matcher Z :=
  then_ (then_ (digit_in 0 9) (digit_in 0 9) (fun a b => 10 * a + b))
        (then_ (digit_in 0 9) (digit_in 0 9) (fun a b => 10 * a + b))
        (fun hi lo => 100 * hi + lo).

Definition re_m : matcher Z :=
  alt (two_digits 1 1 0 2) (alt (two_digits 0 0 1 9) (digit_in 1 9)).

Definition re_d : matcher Z :=
  alt (two_digits 3 3 0 1)
    (alt (two_digits 1 2 0 9)
       (alt (two_digits 0 0 1 9)
          (alt (digit_in 1 9)
             (then_ (lit " ") (digit_in 1 9) (fun _ d => d))))).

Definition re_H : matcher Z :=
  alt (two_digits 2 2 0 3) (alt (two_digits 0 1 0 9) (digit_in 0 9)).

Definition re_M : matcher Z :=
  alt (two_digits 0 5 0 9) (digit_in 0 9).

Definition time_format_regex : matcher datetime :=
  then_ re_Y
    (then_ (lit "-")
       (then_ re_m
          (then_ (lit "-")
             (then_ re_d
                (then_ spaces_plus
                   (then_ re_H (then_ (lit ":") re_M (fun _ mi => mi))
                      (fun h mi => (h, mi)))
                   (fun _ hm => hm))
                (fun d hm => (d, hm)))
             (fun _ dhm => dhm))
          (fun mo dhm => (mo, dhm)))
       (fun _ mdhm => mdhm))
    (fun y mdhm =>
       {| year := y; month := fst mdhm; day := fst (snd mdhm);
          hour := fst (snd (snd mdhm)); minute := snd (snd (snd mdhm));
          second := 0; microsecond := 0 |}).

Definition is_leap (y : Z) : bool :=
  ((y mod 4 =? 0) && (negb (y mod 100 =? 0) || (y mod 400 =? 0)))%bool.

Definition days_in_month (y m : Z) : Z :=
  if m =? 2 then (if is_leap y then 29 else 28)
  else if (m =? 4) || (m =? 6) || (m =? 9) || (m =? 11) then 30
  else 31.

(** [datetime.datetime.strptime(text, TIME_FORMAT)] *)
Definition strptime (text : value) : outcome datetime :=
  match text with
  | VStr s =>
      match time_format_regex s with
      | (dt, EmptyString) :: _ =>
          if (1 <=? dt.(year)) && (dt.(day) <=? days_in_month dt.(year) dt.(month))
          then Return dt
          else Raise ValueError
      | _ => Raise ValueError
      end
  | _ => Raise TypeError
  end.

(** Tuples of integers compare position by position, the first
    difference deciding. *)
Fixpoint lex_ltb (a b : list Z) : bool :=
  match a, b with
  | x :: a', y :: b' =>
      match x ?= y with
      | Lt => true
      | Gt => false
      | Eq => lex_ltb a' b'
      end
  | [], _ :: _ => true
  | _, [] => false
  end.

Definition datetime_fields (dt : datetime) : list Z :=
  [dt.(year); dt.(month); dt.(day); dt.(hour); dt.(minute); dt.(second);
   dt.(microsecond)].

(** [a < b] on datetimes: field by field, the most significant first. *)
Definition datetime_ltb (a b : datetime) : bool :=
  lex_ltb (datetime_fields a) (datetime_fields b).

(* ===================================================================== *)
(** ** [get_index_of_latest_save] *)
(* ===================================================================== *)

(** [range(n)] *)
Definition range (n : nat) : list Z := map Z.of_nat (seq 0 n).

(** A [for] loop whose body may raise, threading the loop's state. *)
Fixpoint for_each {S A : Type} (body : S -> A -> outcome S) (l : list A) (s : S)
    : outcome S :=
  match l with
  | [] => Return s
  | a :: r => s' <- body s a ;; for_each body r s'
  end.

(** [max(first :: rest, key=itemgetter(1))]: the first of the greatest. *)
Fixpoint max_by_time (best : Z * datetime) (rest : list (Z * datetime))
    : Z * datetime :=
  match rest with
  | [] => best
  | x :: r => max_by_time (if datetime_ltb (snd best) (snd x) then x else best) r
  end.

Section Latest.

Variable env : Env.

(** The body of the loop over [range(3)]. *)
Definition scan_slot (times : list (Z * datetime)) (slot_index : Z)
    : outcome (list (Z * datetime)) :=
  let save_path := save_path_of env.(SAVE_PATH) (slot_index + 1) in
  save_data <- open_save_file env save_path ;;
  if negb (is_None save_data) then
    time <- py_getitem save_data "time" ;;
    time_of_save <- strptime time ;;
    Return (times ++ [(slot_index, time_of_save)])%list
  else Return times.

Definition get_index_of_latest_save : outcome (option Z) :=
  times <- for_each scan_slot (range 3) [] ;;
  match times with
  | first :: rest => Return (Some (fst (max_by_time first rest)))
  | [] => Return None
  end.

End Latest.

(* ===================================================================== *)
(** ** Vocabulary of the statements *)
(* ===================================================================== *)

(** The record [load] synthesizes for a file it could not decode. *)
Definition broken_save : value :=
  VDict [("error", VStr "Save file corrupted");
         ("player_name", VStr "BROKEN SAVE!")].

(** The shapes under which the version-0 rewrite runs through: a field
    that is present has the type the rewrite expects, an absent one is
    fine. *)
Definition field_ok (ok : value -> bool) (k : string) (d : dict) : bool :=
  match dict_get k d with
  | Some v => ok v
  | None => true
  end.

Definition is_dict (v : value) : bool :=
  match v with VDict _ => true | _ => false end.

Definition mon_ok (mon : value) : bool :=
  match mon with
  | VDict d => match dict_get "slug" d with Some (VStr _) => true | _ => false end
  | _ => false
  end.

Definition mons_ok (mons : value) : bool :=
  match mons with
  | VList l => forallb mon_ok l
  | VStr EmptyString => true
  | VDict [] => true
  | _ => false
  end.

Definition chest_ok (chest : value) : bool :=
  match chest with
  | VDict ch => field_ok is_dict "items" ch && field_ok mons_ok "monsters" ch
  | _ => false
  end.

Definition well_shaped (sd : dict) : bool :=
  field_ok is_dict "inventory" sd
  && field_ok chest_ok "storage" sd
  && field_ok mons_ok "monsters" sd.

(** No key of the dict has an underscore. *)
Definition plain_keys (d : dict) : bool :=
  forallb (fun kv => negb (contains "_" (fst kv))) d.

(* --------------------------------------------------------------------- *)
(** *** Sample records and worlds *)

Definition legacy_record : value :=
  VDict [("inventory", VDict [("item_potion", VInt 3)]);
         ("storage",
          VDict [("items", VDict [("item_elixir", VInt 1)]);
                 ("monsters",
                  VList [VDict [("slug", VStr "mon_rattata"); ("level", VInt 5)]])]);
         ("monsters",
          VList [VDict [("slug", VStr "mon_pidgey"); ("level", VInt 2)]])].

Definition migrated_record : value :=
  VDict [("inventory", VDict [("potion", VInt 3)]);
         ("storage",
          VDict [("items", VDict [("elixir", VInt 1)]);
                 ("monsters",
                  VList [VDict [("slug", VStr "rattata"); ("level", VInt 5)]])]);
         ("monsters",
          VList [VDict [("slug", VStr "pidgey"); ("level", VInt 2)]])].

Definition current_record : dict :=
  [("version", VInt 1); ("inventory", VDict [("potion", VInt 3)])].

Definition legacy_inventory : value :=
  VDict [("inventory", VDict [("item_potion", VInt 3)])].

Definition plain_inventory : value :=
  VDict [("inventory", VDict [("potion", VInt 3)])].

Definition slugless_record : value :=
  VDict [("monsters", VList [VDict [("level", VInt 2)]])].

Definition bare_record : dict :=
  [("time", VStr "2024-01-01 10:00")].

Definition january_save : dict :=
  [("time", VStr "2024-01-01 10:00"); ("version", VInt 1)].

Definition march_save : dict :=
  [("time", VStr "2024-03-15 09:30"); ("version", VInt 1)].

Fixpoint assoc {A : Type} (k : string) (l : list (string * A)) : option A :=
  match l with
  | [] => None
  | (k', a) :: r => if (k' =? k)%string then Some a else assoc k r
  end.

(** The character that [open] refuses in a path. *)
Definition NUL : ascii := ascii_of_nat 0.

(** A world given by tables: the files under ["saves/slot"] ([open]
    raises [ValueError] for a path with a NUL in it and [IOError] for a
    path with no file), what the JSON decoder makes of a text (anything
    else is a decode error), and a CBOR decoder, when there is one, that
    raises [EOFError] at the end of its input as the library does; the
    tables hold no CBOR file, so it refuses every other text. *)
Definition world (files : list (string * string))
    (decoded : list (string * value)) (with_cbor : bool) : Env :=
  {| SAVE_PATH := "saves/slot";
     fs := fun path =>
       if contains NUL path then Raise ValueError
       else
         match assoc path files with
         | Some text => Return text
         | None => Raise IOError
         end;
     json_loads := fun text =>
       match assoc text decoded with
       | Some v => Return v
       | None => Raise ValueError
       end;
     cbor_loads :=
       if with_cbor
       then Some (fun text =>
                    match text with
                    | EmptyString => Raise EOFError
                    | _ => Raise ValueError
                    end)
       else None |}.

Definition two_saves_world : Env :=
  world [("saves/slot1.save", "january"); ("saves/slot2.save", "march")]
        [("january", VDict january_save); ("march", VDict march_save)]
        true.

Definition corrupt_world : Env :=
  world [("saves/slot1.save", "garbage")] [] true.

Definition empty_record_world : Env :=
  world [("saves/slot1.save", "{}")] [("{}", VDict [])] true.

Definition no_saves_world : Env :=
  world [] [] true.

Definition no_cbor_world : Env :=
  world [("saves/slot1.save", "garbage")] [] false.

(* ===================================================================== *)
(** ** [save] *)
(* ===================================================================== *)

(** What writing needs from the surroundings: [prepare.SAVE_METHOD] as
    the configuration gives it; the two encoders ([cbor.dumps] is only
    there when [import cbor] succeeded); the exception that
    [open(path, 'w')] raises, if it raises one ([IOError] for a path
    that cannot be written, [ValueError] for a path with a NUL
    character); and how a [write] of a text to a path ends: [None] when
    all of it is written, or the number of characters that got through
    and the exception raised. *)
Record Writer : Type := {
  configured_method : string;
  json_dumps : value -> outcome string;
  cbor_dumps : value -> outcome string;
  open_w_raises : string -> option exn;
  write_fails : string -> string -> option (nat * exn)
}.

(** [prepare.SAVE_METHOD] once the module is imported: a failed
    [import cbor] sets it to ["JSON"]. *)
Definition SAVE_METHOD (env : Env) (w : Writer) : string :=
  match env.(cbor_loads) with
  | Some _ => w.(configured_method)
  | None => "JSON"
  end.

(** What [open] gives once [path] has been given the content [text]. *)
Definition fs_update (path text : string) (files : string -> outcome string)
    : string -> outcome string :=
  fun p => if (p =? path)%string then Return text else files p.

(** What an encoder hands back: [json.dumps] a text, [cbor.dumps]
    bytes. *)
Inductive payload : Type :=
| Text (text : string)
| Bytes (bytes : string).

Section Save.

Variable env : Env.
Variable w : Writer.

(** [cbor.dumps(save_data)] *)
Definition cbor_dumps_call (save_data : value) : outcome string :=
  match env.(cbor_loads) with
  | Some _ => w.(cbor_dumps) save_data
  | None => Raise NameError
  end.

(** The [if]/[else] that picks the encoder. *)
Definition encode (save_data : value) : outcome payload :=
  if (SAVE_METHOD env w =? "CBOR")%string
  then bytes <- cbor_dumps_call save_data ;; Return (Bytes bytes)
  else text <- w.(json_dumps) save_data ;; Return (Text text).

(** [save(save_data, slot)]: the outcome and the files afterwards.  The
    record is encoded first; [open(save_path, 'w')] then empties the
    file and [f.write(text)] fills it.  The file is opened as a text
    file, and Python 3 refuses bytes there with [TypeError]. *)
Definition save (save_data : value) (slot : Z)
    : outcome unit * (string -> outcome string) :=
  let save_path := env.(SAVE_PATH) ++ str slot ++ ".save" in
  match encode save_data with
  | Raise e => (Raise e, env.(fs))
  | Return encoded =>
      match w.(open_w_raises) save_path with
      | Some e => (Raise e, env.(fs))
      | None =>
          match encoded with
          | Bytes _ => (Raise TypeError, fs_update save_path "" env.(fs))
          | Text text =>
              match w.(write_fails) save_path text with
              | None => (Return tt, fs_update save_path text env.(fs))
              | Some (n, e) =>
                  (Raise e, fs_update save_path (substring 0 n text) env.(fs))
              end
          end
      end
  end.

End Save.

(** The same surroundings with other files. *)
Definition with_fs (env : Env) (files : string -> outcome string) : Env :=
  {| SAVE_PATH := env.(SAVE_PATH);
     fs := files;
     json_loads := env.(json_loads);
     cbor_loads := env.(cbor_loads) |}.

(** The world as [save] leaves it. *)
Definition after_save (env : Env) (w : Writer) (save_data : value) (slot : Z)
    : Env :=
  with_fs env (snd (save env w save_data slot)).

(* --------------------------------------------------------------------- *)
(** *** More vocabulary *)

(** What the scan of [get_index_of_latest_save] finds in one slot: the
    loop body up to the [append]. *)
Definition slot_time (env : Env) (slot_index : Z) : outcome (option datetime) :=
  save_data <- open_save_file env (save_path_of env.(SAVE_PATH) (slot_index + 1)) ;;
  if negb (is_None save_data) then
    time <- py_getitem save_data "time" ;;
    time_of_save <- strptime time ;;
    Return (Some time_of_save)
  else Return None.

(** The rewritten keys of a dict, in order. *)
Definition rewritten_keys (d : dict) : list string :=
  map (fun kv => partition_2 "_" (fst kv)) d.

(** What [fix_mon] does to one well-formed monster. *)
Definition slug_rewritten (mon mon' : value) : Prop :=
  exists d slug,
    mon = VDict d /\
    dict_get "slug" d = Some (VStr slug) /\
    mon' = VDict (dict_set "slug" (VStr (partition_2 "_" slug)) d).

(** A writer with the given configured method whose JSON encoder gives
    the text ["written"] for every record and whose CBOR encoder gives
    the bytes ["binary"], on a disk that takes every text. *)
Definition plain_writer (method : string) : Writer :=
  {| configured_method := method;
     json_dumps := fun _ => Return "written";
     cbor_dumps := fun _ => Return "binary";
     open_w_raises := fun path =>
       if contains NUL path then Some ValueError else None;
     write_fails := fun _ _ => None |}.

(** A writer whose encoder refuses the record. *)
Definition refusing_writer : Writer :=
  {| configured_method := "JSON";
     json_dumps := fun _ => Raise TypeError;
     cbor_dumps := fun _ => Raise TypeError;
     open_w_raises := fun path =>
       if contains NUL path then Some ValueError else None;
     write_fails := fun _ _ => None |}.

Definition january_world : Env :=
  world [("saves/slot1.save", "january")]
        [("january", VDict january_save); ("written", VDict march_save)]
        true.

Definition null_world : Env :=
  world [("saves/slot1.save", "null")] [("null", VNone)] true.

Definition list_world : Env :=
  world [("saves/slot1.save", "[]")] [("[]", VList [])] true.

Definition tie_world : Env :=
  world [("saves/slot1.save", "january"); ("saves/slot2.save", "january");
         ("saves/slot3.save", "january")]
        [("january", VDict january_save)]
        true.

Definition two_garbage_world : Env :=
  world [("saves/slot1.save", "garbage"); ("saves/slot2.save", "rubbish")] [] true.

Definition current_world : Env :=
  world [("saves/slot1.save", "current")] [("current", VDict current_record)] true.

(** The texts of a list are pairwise different. *)
Fixpoint distinct (l : list string) : bool :=
  match l with
  | [] => true
  | x :: r => negb (existsb (String.eqb x) r) && distinct r
  end.

(** An entry under its rewritten key. *)
Definition renamed (kv : string * value) : string * value :=
  (partition_2 "_" (fst kv), snd kv).

(** The entry that the scan appends for a slot. *)
Definition slot_entry (slot_index : Z) (found : option datetime)
    : list (Z * datetime) :=
  match found with
  | Some time_of_save => [(slot_index, time_of_save)]
  | None => []
  end.

(* --------------------------------------------------------------------- *)
(** *** [strftime] for [TIME_FORMAT] *)

(** The text that [datetime.strftime("%Y-%m-%d %H:%M")] gives for the
    years 1000 to 9999, the ones that take four digits: every field in
    decimal, two digits each and four for the year, zeros in front. *)
Definition digit_char (d : Z) : ascii := ascii_of_nat (48 + Z.to_nat d).

Definition two_digit_text (n : Z) (rest : string) : string :=
  String (digit_char (n / 10)) (String (digit_char (n mod 10)) rest).

Definition strftime (dt : datetime) : string :=
  let minute_on := two_digit_text dt.(minute) "" in
  let hour_on := two_digit_text dt.(hour) (String ":" minute_on) in
  let day_on := two_digit_text dt.(day) (String " " hour_on) in
  let month_on := two_digit_text dt.(month) (String "-" day_on) in
  two_digit_text (dt.(year) / 100)
    (two_digit_text (dt.(year) mod 100) (String "-" month_on)).

(** A time with its seconds and microseconds dropped. *)
Definition cut_to_minute (dt : datetime) : datetime :=
  {| year := dt.(year); month := dt.(month); day := dt.(day);
     hour := dt.(hour); minute := dt.(minute);
     second := 0; microsecond := 0 |}.

(** A time of the calendar, with a year of four digits. *)
Definition on_calendar (dt : datetime) : bool :=
  (1000 <=? dt.(year)) && (dt.(year) <=? 9999)
  && (1 <=? dt.(month)) && (dt.(month) <=? 12)
  && (1 <=? dt.(day)) && (dt.(day) <=? days_in_month dt.(year) dt.(month))
  && (0 <=? dt.(hour)) && (dt.(hour) <=? 23)
  && (0 <=? dt.(minute)) && (dt.(minute) <=? 59).

(* ===================================================================== *)
(** * Properties *)
(* ===================================================================== *)

(** ** The reader: [open_save_file] *)

Lemma substring_nothing (n : nat) (s : string) : substring n 0 s = "".
Proof.
  revert n. induction s as [| c s IH]; intros [| n]; simpl; auto.
Qed.

(** After [read], nothing is left to read. *)
Lemma unread_after_read (f : file) : unread (snd (read f)) = "".
Proof.
  unfold unread, read. simpl. rewrite Nat.sub_diag. apply substring_nothing.
Qed.

Lemma unread_fresh (text : string) :
  unread {| contents := text; position := 0 |} = text.
Proof.
  unfold unread. simpl. rewrite Nat.sub_0_r.
  induction text as [| c text IH]; simpl; [reflexivity | now rewrite IH].
Qed.

Section ReaderFacts.

Variable env : Env.

(** [json.load] sees the whole text of a freshly opened file. *)
Lemma json_load_fresh (text : string) :
  fst (json_load env {| contents := text; position := 0 |})
  = env.(json_loads) text.
Proof.
  unfold json_load, read. simpl fst.
  now rewrite unread_fresh.
Qed.

(** [cbor.load] gets the file when [json.load] has read it to its end. *)
Lemma cbor_load_after_json (f : file) :
  cbor_load env (snd (json_load env f))
  = match env.(cbor_loads) with
    | Some loads => loads ""
    | None => Raise NameError
    end.
Proof.
  unfold cbor_load, json_load.
  change (snd (let (text, fp') := read f in (json_loads env text, fp')))
    with (snd (read f)).
  now rewrite unread_after_read.
Qed.

Lemma open_save_file_missing (path : string) :
  env.(fs) path = Raise IOError -> open_save_file env path = Return VNone.
Proof.
  intros H. unfold open_save_file, open_. now rewrite H.
Qed.

(** When [open] raises, the reader turns an [IOError] into [None] and
    lets everything else through. *)
Lemma open_save_file_open_raises (path : string) (e : exn) :
  env.(fs) path = Raise e ->
  open_save_file env path = if is_IOError e then Return VNone else Raise e.
Proof.
  intros H. unfold open_save_file, open_. now rewrite H.
Qed.

(** With the file there, the result is that of the two decoding
    attempts under the two handlers. *)
Lemma open_save_file_present (path text : string) :
  env.(fs) path = Return text ->
  let save_file := {| contents := text; position := 0 |} in
  open_save_file env path
  = try_except
      (try_except (fst (json_load env save_file)) is_ValueError
         (try_except (cbor_load env (snd (json_load env save_file)))
            is_ValueError (Return (VDict []))))
      is_IOError (Return VNone).
Proof.
  intros H save_file. unfold open_save_file, open_. rewrite H. reflexivity.
Qed.

(** What the JSON decoder makes of the file is what the reader
    returns. *)
Lemma open_save_file_json (path text : string) (v : value) :
  env.(fs) path = Return text ->
  env.(json_loads) text = Return v ->
  open_save_file env path = Return v.
Proof.
  intros H J. rewrite (open_save_file_present _ _ H). cbv zeta.
  now rewrite json_load_fresh, J.
Qed.

(** For a file that the JSON decoder refuses, the reader's result is
    what the second attempt makes of the empty text. *)
Lemma open_save_file_json_refused (path text : string) :
  env.(fs) path = Return text ->
  env.(json_loads) text = Raise ValueError ->
  open_save_file env path
  = try_except
      (try_except
         match env.(cbor_loads) with
         | Some loads => loads ""
         | None => Raise NameError
         end
         is_ValueError (Return (VDict [])))
      is_IOError (Return VNone).
Proof.
  intros F J. rewrite (open_save_file_present _ _ F). cbv zeta.
  now rewrite cbor_load_after_json, json_load_fresh, J.
Qed.

(** What the second decoder raises on the file object that is at its
    end leaves the reader, unless it is one of the two handled
    classes. *)
Lemma open_save_file_second_raises (path text : string)
    (loads : string -> outcome value) (e : exn) :
  env.(fs) path = Return text ->
  env.(json_loads) text = Raise ValueError ->
  env.(cbor_loads) = Some loads ->
  loads "" = Raise e ->
  is_ValueError e = false ->
  is_IOError e = false ->
  open_save_file env path = Raise e.
Proof.
  intros F J C L V I. rewrite (open_save_file_json_refused _ _ F J), C, L.
  cbn [try_except]. rewrite V. cbn [try_except]. now rewrite I.
Qed.

(** Without the [cbor] module the second attempt is a [NameError],
    which neither handler catches. *)
Lemma open_save_file_without_cbor (path text : string) :
  env.(fs) path = Return text ->
  env.(json_loads) text = Raise ValueError ->
  env.(cbor_loads) = None ->
  open_save_file env path = Raise NameError.
Proof.
  intros H Hj Hc. rewrite (open_save_file_json_refused _ _ H Hj), Hc.
  reflexivity.
Qed.

End ReaderFacts.

(** C5. A file that is there and is not JSON: [json.load] reads it to
    its end and raises its decode error, the reader goes on to
    [cbor.load] with the same file object, which has nothing left to read
    and raises [EOFError]; this is not a [ValueError], so it leaves the
    reader.  The empty record that stands for a corrupt file is not
    returned. *)
Theorem open_save_file_garbage_escapes :
  corrupt_world.(fs) "saves/slot1.save" = Return "garbage" /\
  fst (json_load corrupt_world {| contents := "garbage"; position := 0 |})
  = Raise ValueError /\
  cbor_load corrupt_world
    (snd (json_load corrupt_world {| contents := "garbage"; position := 0 |}))
  = Raise EOFError /\
  open_save_file corrupt_world "saves/slot1.save" = Raise EOFError /\
  open_save_file corrupt_world "saves/slot1.save" <> Return (VDict []).
Proof.
  repeat split. discriminate.
Qed.

(* ===================================================================== *)
(** ** [load] *)
(* ===================================================================== *)

Section LoadFacts.

Variable env : Env.

(** C9. A slot with no file on disk ([open] raises [IOError]) loads as
    [None]: [load] returns, it does not raise. *)
Theorem load_missing (slot : Z) :
  env.(fs) (save_path_of env.(SAVE_PATH) slot) = Raise IOError ->
  load env slot = Return VNone.
Proof.
  intros H. unfold load. now rewrite (open_save_file_missing env _ H).
Qed.

(** What [load] does with an empty record, wherever it came from. *)
Lemma load_of_empty (slot : Z) :
  open_save_file env (save_path_of env.(SAVE_PATH) slot) = Return (VDict []) ->
  load env slot = Return broken_save.
Proof.
  intros H. unfold load. now rewrite H.
Qed.

(** What the reader raises, [load] raises. *)
Lemma load_reader_raises (slot : Z) (e : exn) :
  open_save_file env (save_path_of env.(SAVE_PATH) slot) = Raise e ->
  load env slot = Raise e.
Proof.
  intros H. unfold load. now rewrite H.
Qed.

(** C10. A slot whose file exists and for which the reader returns the
    empty mapping, as it does when the file decodes, without any error,
    to the empty mapping, does not load as that empty mapping: [load]
    tells the outcomes apart by the truth value of the record, an empty
    dict is false and is not [None], so the branch for corrupt files runs
    and the record with the error text and the broken-save name comes
    back. *)
Theorem load_empty_record (slot : Z) (text : string) :
  env.(fs) (save_path_of env.(SAVE_PATH) slot) = Return text ->
  open_save_file env (save_path_of env.(SAVE_PATH) slot) = Return (VDict []) ->
  load env slot = Return broken_save /\
  load env slot <> Return (VDict []) /\
  truthy (VDict []) = false.
Proof.
  intros H D.
  assert (L : load env slot = Return broken_save)
    by (apply load_of_empty; exact D).
  rewrite L. repeat split. discriminate.
Qed.

(** A non-empty dict from the reader goes through the migration. *)
Lemma load_found (slot : Z) (k : string) (v : value) (sd : dict) :
  open_save_file env (save_path_of env.(SAVE_PATH) slot)
  = Return (VDict ((k, v) :: sd)) ->
  load env slot = upgrade_save (VDict ((k, v) :: sd)).
Proof.
  intros H. unfold load. now rewrite H.
Qed.

End LoadFacts.

(** C8. A slot whose file is there and is neither JSON nor anything the
    second decoder gets to see: [load] does not return the record with
    the error text and the broken-save name, it raises the [EOFError]
    that leaves the reader. *)
Theorem load_garbage_raises :
  corrupt_world.(fs) (save_path_of corrupt_world.(SAVE_PATH) 1) = Return "garbage" /\
  corrupt_world.(json_loads) "garbage" = Raise ValueError /\
  open_save_file corrupt_world (save_path_of corrupt_world.(SAVE_PATH) 1)
  = Raise EOFError /\
  load corrupt_world 1 = Raise EOFError /\
  load corrupt_world 1 <> Return broken_save.
Proof.
  repeat split. discriminate.
Qed.

Lemma load_missing_witness : load corrupt_world 2 = Return VNone.
Proof.
  apply (load_missing corrupt_world 2). reflexivity.
Defined.

Lemma load_empty_record_witness :
  load empty_record_world 1 = Return broken_save /\
  load empty_record_world 1 <> Return (VDict []) /\
  truthy (VDict []) = false.
Proof.
  apply (load_empty_record empty_record_world 1 "{}"); reflexivity.
Defined.

(* ===================================================================== *)
(** ** [get_index_of_latest_save] *)
(* ===================================================================== *)

(** *** The order on times and [max] *)

Lemma lex_ltb_irrefl (a : list Z) : lex_ltb a a = false.
Proof.
  induction a as [| x a IH]; simpl; [reflexivity |].
  now rewrite Z.compare_refl.
Qed.

Lemma lex_ltb_trans (a b c : list Z) :
  lex_ltb a b = true -> lex_ltb b c = true -> lex_ltb a c = true.
Proof.
  revert b c. induction a as [| x a IH]; intros [| y b] [| z c]; simpl;
    try discriminate; try reflexivity.
  destruct (Z.compare_spec x y), (Z.compare_spec y z), (Z.compare_spec x z);
    try discriminate; try reflexivity; try lia.
  apply IH.
Qed.

(** The order is total: what is below [a] is below [b] or [b] is below [a]. *)
Lemma lex_ltb_cotrans (a b c : list Z) :
  lex_ltb c a = true -> lex_ltb c b = true \/ lex_ltb b a = true.
Proof.
  revert b c. induction a as [| x a IH]; intros [| y b] [| z c]; simpl;
    try discriminate; auto.
  destruct (Z.compare_spec z x), (Z.compare_spec z y), (Z.compare_spec y x);
    try discriminate; auto; lia.
Qed.

Lemma max_by_time_In (best : Z * datetime) (rest : list (Z * datetime)) :
  In (max_by_time best rest) (best :: rest).
Proof.
  revert best. induction rest as [| x rest IH]; intros best; simpl; [auto |].
  destruct (IH (if datetime_ltb (snd best) (snd x) then x else best)) as [E | E].
  - rewrite <- E. destruct (datetime_ltb (snd best) (snd x)); auto.
  - auto.
Qed.

(** No entry is later than the one [max] picks. *)
Lemma max_by_time_greatest (best : Z * datetime) (rest : list (Z * datetime))
    (x : Z * datetime) :
  In x (best :: rest) ->
  datetime_ltb (snd (max_by_time best rest)) (snd x) = false.
Proof.
  revert best x. induction rest as [| y rest IH]; intros best x.
  - intros [<- | []]. apply lex_ltb_irrefl.
  - cbn [max_by_time].
    set (best' := if datetime_ltb (snd best) (snd y) then y else best).
    intros H.
    assert (Hb : datetime_ltb (snd (max_by_time best' rest)) (snd best') = false)
      by (apply IH; now left).
    destruct H as [<- | [<- | H]]; [| | apply IH; now right].
    + destruct (datetime_ltb (snd (max_by_time best' rest)) (snd best)) eqn:E;
        [| reflexivity].
      subst best'. destruct (datetime_ltb (snd best) (snd y)) eqn:L;
        [| congruence].
      unfold datetime_ltb in *. now rewrite (lex_ltb_trans _ _ _ E L) in Hb.
    + destruct (datetime_ltb (snd (max_by_time best' rest)) (snd y)) eqn:E;
        [| reflexivity].
      subst best'. destruct (datetime_ltb (snd best) (snd y)) eqn:L;
        [congruence |].
      unfold datetime_ltb in *.
      destruct (lex_ltb_cotrans _ (datetime_fields (snd best)) _ E); congruence.
Qed.

(** Among equal times the earlier entry stays: [max] keeps [best] as
    long as nothing later in the list is strictly greater. *)
Lemma max_by_time_keeps_first (best : Z * datetime) (rest : list (Z * datetime)) :
  (forall x, In x rest -> datetime_ltb (snd best) (snd x) = false) ->
  max_by_time best rest = best.
Proof.
  revert best. induction rest as [| y rest IH]; intros best H; [reflexivity |].
  cbn [max_by_time]. rewrite (H y) by now left.
  apply IH. intros x Hx. apply H. now right.
Qed.

Section LatestFacts.

Variable env : Env.

(** An absent slot adds nothing to [times]. *)
Lemma scan_slot_absent (times : list (Z * datetime)) (slot_index : Z) :
  env.(fs) (save_path_of env.(SAVE_PATH) (slot_index + 1)) = Raise IOError ->
  scan_slot env times slot_index = Return times.
Proof.
  intros H. unfold scan_slot.
  now rewrite (open_save_file_missing env _ H).
Qed.

(** A slot with a record whose [time] parses adds its index. *)
Lemma scan_slot_found (times : list (Z * datetime)) (slot_index : Z)
    (save : dict) (time : value) (dt : datetime) :
  open_save_file env (save_path_of env.(SAVE_PATH) (slot_index + 1)) = Return (VDict save) ->
  dict_get "time" save = Some time ->
  strptime time = Return dt ->
  scan_slot env times slot_index = Return (times ++ [(slot_index, dt)])%list.
Proof.
  intros H T P. unfold scan_slot.
  rewrite H. cbn [bind is_None negb py_getitem]. rewrite T.
  cbn [bind]. now rewrite P.
Qed.

(** The empty record that stands for a corrupt file stops the scan: it
    has no [time]. *)
Lemma scan_slot_corrupt (times : list (Z * datetime)) (slot_index : Z) :
  open_save_file env (save_path_of env.(SAVE_PATH) (slot_index + 1))
  = Return (VDict []) ->
  scan_slot env times slot_index = Raise KeyError.
Proof.
  intros H. unfold scan_slot. now rewrite H.
Qed.

(** What the reader raises stops the scan too. *)
Lemma scan_slot_reader_raises (times : list (Z * datetime)) (slot_index : Z)
    (e : exn) :
  open_save_file env (save_path_of env.(SAVE_PATH) (slot_index + 1)) = Raise e ->
  scan_slot env times slot_index = Raise e.
Proof.
  intros H. unfold scan_slot. now rewrite H.
Qed.

Lemma latest_unfold :
  get_index_of_latest_save env
  = (times <- (t0 <- scan_slot env [] 0 ;;
               t1 <- scan_slot env t0 1 ;;
               scan_slot env t1 2) ;;
     match times with
     | first :: rest => Return (Some (fst (max_by_time first rest)))
     | [] => Return None
     end).
Proof.
  unfold get_index_of_latest_save. change (range 3) with [0; 1; 2].
  simpl for_each.
  destruct (scan_slot env [] 0) as [t0 |]; [simpl | reflexivity].
  destruct (scan_slot env t0 1) as [t1 |]; [simpl | reflexivity].
  destruct (scan_slot env t1 2); reflexivity.
Qed.

(** With no file in any of the three slots there is no latest save. *)
Lemma latest_no_saves :
  env.(fs) (save_path_of env.(SAVE_PATH) 1) = Raise IOError ->
  env.(fs) (save_path_of env.(SAVE_PATH) 2) = Raise IOError ->
  env.(fs) (save_path_of env.(SAVE_PATH) 3) = Raise IOError ->
  get_index_of_latest_save env = Return None.
Proof.
  intros H1 H2 H3. rewrite latest_unfold.
  rewrite (scan_slot_absent [] 0 H1). simpl bind.
  rewrite (scan_slot_absent [] 1 H2). simpl bind.
  now rewrite (scan_slot_absent [] 2 H3).
Qed.

(** When the reader returns the empty record for the first slot the
    finder raises [KeyError], whatever the other slots hold. *)
Lemma latest_corrupt_first :
  open_save_file env (save_path_of env.(SAVE_PATH) 1) = Return (VDict []) ->
  get_index_of_latest_save env = Raise KeyError.
Proof.
  intros H. rewrite latest_unfold.
  now rewrite (scan_slot_corrupt [] 0 H).
Qed.

(** When the reader raises for the first slot, so does the finder. *)
Lemma latest_reader_raises_first (e : exn) :
  open_save_file env (save_path_of env.(SAVE_PATH) 1) = Raise e ->
  get_index_of_latest_save env = Raise e.
Proof.
  intros H. rewrite latest_unfold.
  now rewrite (scan_slot_reader_raises [] 0 e H).
Qed.

(** Whatever the slots hold: when the scan goes through, the finder
answers [None] for an empty [times] and otherwise the index of an
entry that no other entry is later than. *)
Lemma latest_is_greatest (times : list (Z * datetime)) :
  for_each (scan_slot env) (range 3) [] = Return times ->
  match times with
  | [] => get_index_of_latest_save env = Return None
  | _ :: _ =>
      exists m,
        In m times /\
        get_index_of_latest_save env = Return (Some (fst m)) /\
        forall x, In x times -> datetime_ltb (snd m) (snd x) = false
  end.
Proof.
  intros H. unfold get_index_of_latest_save. rewrite H. cbn [bind].
  destruct times as [| first rest]; [reflexivity |].
  exists (max_by_time first rest). split; [apply max_by_time_In |].
  split; [reflexivity |]. intros x. apply max_by_time_greatest.
Qed.

(** C3 (amended). With readable records in slots 1 and 2 (the reader
    returns them) whose [time] fields are ["2024-01-01 10:00"] and
    ["2024-03-15 09:30"], and no file in slot 3, the finder returns 1:
    the zero-based index of slot 2, the slot with the later time. *)
Theorem latest_of_two_saves (save1 save2 : dict) :
  open_save_file env (save_path_of env.(SAVE_PATH) 1) = Return (VDict save1) ->
  dict_get "time" save1 = Some (VStr "2024-01-01 10:00") ->
  open_save_file env (save_path_of env.(SAVE_PATH) 2) = Return (VDict save2) ->
  dict_get "time" save2 = Some (VStr "2024-03-15 09:30") ->
  env.(fs) (save_path_of env.(SAVE_PATH) 3) = Raise IOError ->
  get_index_of_latest_save env = Return (Some 1).
Proof.
  intros D1 T1 D2 T2 F3. rewrite latest_unfold.
  rewrite (scan_slot_found [] 0 save1 _ _ D1 T1 eq_refl).
  simpl bind.
  rewrite (scan_slot_found _ 1 save2 _ _ D2 T2 eq_refl).
  simpl bind.
  rewrite (scan_slot_absent _ 2 F3).
  reflexivity.
Qed.

End LatestFacts.

Lemma latest_of_two_saves_witness :
  get_index_of_latest_save two_saves_world = Return (Some 1).
Proof.
  apply (latest_of_two_saves two_saves_world january_save march_save);
    reflexivity.
Defined.

(** C3, as stated: the finder would return 2.  It returns 1. *)
Lemma latest_of_two_saves_is_not_2 :
  get_index_of_latest_save two_saves_world = Return (Some 1) /\
  get_index_of_latest_save two_saves_world <> Return (Some 2).
Proof.
  split; [reflexivity | discriminate].
Qed.

(** C4. Slot 1 holds a file that is not JSON and slots 2 and 3 are
    absent: the finder does not skip slot 1 and return [None], it raises
    the [EOFError] that leaves the reader.  And were the reader to return
    the empty record that stands for a corrupt file, the finder would not
    skip the slot either: only [None] is guarded against, and the [time]
    lookup in the empty record raises [KeyError]. *)
Theorem latest_raises_on_corrupt_slot :
  corrupt_world.(fs) "saves/slot1.save" = Return "garbage" /\
  corrupt_world.(json_loads) "garbage" = Raise ValueError /\
  corrupt_world.(fs) "saves/slot2.save" = Raise IOError /\
  corrupt_world.(fs) "saves/slot3.save" = Raise IOError /\
  get_index_of_latest_save corrupt_world = Raise EOFError /\
  forall env,
    open_save_file env (save_path_of env.(SAVE_PATH) 1) = Return (VDict []) ->
    get_index_of_latest_save env = Raise KeyError.
Proof.
  repeat split. apply latest_corrupt_first.
Qed.

(** A slot whose file holds the empty JSON object: the reader returns
    the empty record and the finder raises [KeyError]. *)
Lemma latest_raises_on_corrupt_slot_witness :
  open_save_file empty_record_world
    (save_path_of empty_record_world.(SAVE_PATH) 1) = Return (VDict []) /\
  get_index_of_latest_save empty_record_world = Raise KeyError.
Proof.
  split; [reflexivity |].
  apply (proj2 (proj2 (proj2 (proj2 (proj2 latest_raises_on_corrupt_slot))))
           empty_record_world).
  reflexivity.
Defined.

(** The same world with slot 1 absent too: no latest save, no error. *)
Example latest_no_saves_run :
  get_index_of_latest_save no_saves_world = Return None.
Proof.
  apply latest_no_saves; reflexivity.
Qed.

(* ===================================================================== *)
(** ** [upgrade_save] *)
(* ===================================================================== *)

(** *** Dicts and [partition] *)

Lemma dict_get_set_same (k : string) (v : value) (d : dict) :
  dict_get k (dict_set k v d) = Some v.
Proof.
  induction d as [| [k' v'] d IH]; simpl.
  - now rewrite String.eqb_refl.
  - destruct (k' =? k)%string eqn:E; simpl; now rewrite E.
Qed.

Lemma dict_get_set_other (k k' : string) (v : value) (d : dict) :
  (k' =? k)%string = false ->
  dict_get k (dict_set k' v d) = dict_get k d.
Proof.
  intros N. induction d as [| [k0 v0] d IH]; simpl.
  - now rewrite N.
  - destruct (k0 =? k')%string eqn:E; simpl.
    + apply String.eqb_eq in E. subst k0. now rewrite N.
    + now rewrite IH.
Qed.

Lemma dict_get_default_set_other (k k' : string) (dflt v : value) (d : dict) :
  (k' =? k)%string = false ->
  dict_get_default k dflt (dict_set k' v d) = dict_get_default k dflt d.
Proof.
  intros N. unfold dict_get_default. now rewrite dict_get_set_other.
Qed.

Lemma dict_get_write_back_other (k k' : string) (v : value) (d : dict) :
  (k' =? k)%string = false ->
  dict_get k (write_back k' v d) = dict_get k d.
Proof.
  intros N. unfold write_back.
  destruct (dict_has k' d); [now apply dict_get_set_other | reflexivity].
Qed.

Lemma write_back_absent (k : string) (v : value) (d : dict) :
  dict_get k d = None -> write_back k v d = d.
Proof.
  intros H. unfold write_back, dict_has. now rewrite H.
Qed.

(** Without the separator, [partition] hands the text back whole and
    leaves the other two parts empty. *)
Lemma partition_no_sep (sep : ascii) (s : string) :
  contains sep s = false -> partition sep s = (s, "", "").
Proof.
  induction s as [| c s IH]; simpl; intros H; [reflexivity |].
  apply orb_false_iff in H. destruct H as [Hc Hs].
  rewrite Hc, (IH Hs). reflexivity.
Qed.

Lemma partition_2_no_sep (sep : ascii) (s : string) :
  contains sep s = false -> partition_2 sep s = "".
Proof.
  intros H. unfold partition_2. now rewrite partition_no_sep.
Qed.

(** The separator is found or it is not. *)
Lemma partition_cases (sep : ascii) (s : string) :
  (contains sep s = false /\ partition sep s = (s, "", "")) \/
  (exists h t, partition sep s = (h, String sep "", t)).
Proof.
  induction s as [| c s IH]; simpl; [now left |].
  destruct (Ascii.eqb c sep); [right; eauto |].
  destruct IH as [[N E] | (h & t & E)]; rewrite E.
  - left. now split.
  - right. eauto.
Qed.

(** With the separator, it is the text after its first occurrence. *)
Lemma partition_2_cons (sep c : ascii) (s : string) :
  partition_2 sep (String c s) = if Ascii.eqb c sep then s else partition_2 sep s.
Proof.
  unfold partition_2. simpl. destruct (Ascii.eqb c sep); [reflexivity |].
  destruct (partition_cases sep s) as [[_ E] | (h & t & E)]; now rewrite E.
Qed.

(** The rewritten text is shorter, unless there was nothing to rewrite. *)
Lemma partition_2_length (sep : ascii) (s : string) :
  (String.length (partition_2 sep s) <= String.length s)%nat /\
  (s <> "" -> String.length (partition_2 sep s) < String.length s)%nat.
Proof.
  induction s as [| c s [IH1 IH2]].
  - split; [reflexivity | congruence].
  - rewrite partition_2_cons. simpl.
    destruct (Ascii.eqb c sep); split; intros; lia.
Qed.

Lemma last_snd {A B : Type} (l : list (A * B)) (d1 d2 : A * B) :
  snd d1 = snd d2 -> snd (last l d1) = snd (last l d2).
Proof.
  intros H. induction l as [| x l IH]; simpl; [exact H |].
  destruct l; [reflexivity | exact IH].
Qed.

Lemma last_cons_default {A : Type} (x : A) (l : list A) (d1 d2 : A) :
  last (x :: l) d1 = last (x :: l) d2.
Proof.
  revert x. induction l as [| y l IH]; intros x; [reflexivity |].
  change (last (y :: l) d1 = last (y :: l) d2). apply IH.
Qed.

(** *** The rewrite on texts without an underscore *)

Lemma fold_plain_keys (d : dict) (v0 : value) :
  plain_keys d = true ->
  fold_left (fun acc kv => dict_set (partition_2 "_" (fst kv)) (snd kv) acc)
            d [("", v0)]
  = [("", snd (last d ("", v0)))].
Proof.
  revert v0. induction d as [| [k v] d IH]; intros v0 P; [reflexivity |].
  simpl in P. apply andb_true_iff in P. destruct P as [Pk Pd].
  apply negb_true_iff in Pk.
  cbn [fold_left fst snd]. rewrite (partition_2_no_sep _ _ Pk).
  cbn [dict_set String.eqb]. rewrite (IH v Pd).
  do 2 f_equal. destruct d as [| x d]; [reflexivity |].
  change (last ((k, v) :: x :: d) ("", v0)) with (last (x :: d) ("", v0)).
  f_equal. apply last_cons_default.
Qed.

Lemma fix_items_plain_keys (d : dict) :
  plain_keys d = true ->
  fix_items (VDict d)
  = Return (VDict match d with
                  | [] => []
                  | kv :: r => [("", snd (last r kv))]
                  end).
Proof.
  intros P. unfold fix_items. destruct d as [| [k v] d]; [reflexivity |].
  simpl in P. apply andb_true_iff in P. destruct P as [Pk Pd].
  apply negb_true_iff in Pk.
  cbn [fold_left fst snd]. rewrite (partition_2_no_sep _ _ Pk).
  cbn [dict_set]. rewrite (fold_plain_keys d v Pd).
  do 4 f_equal. now apply last_snd.
Qed.

Lemma fix_mon_plain_slug (mon : dict) (slug : string) :
  dict_get "slug" mon = Some (VStr slug) ->
  contains "_" slug = false ->
  fix_mon (VDict mon) = Return (VDict (dict_set "slug" (VStr "") mon)).
Proof.
  intros S P. unfold fix_mon, py_getitem. rewrite S. cbn [bind py_setitem].
  now rewrite (partition_2_no_sep _ _ P).
Qed.

(** C6 (amended). A key of the inventory or of the chest's items, or a
    monster's slug, that has no underscore is rewritten to the empty
    text: a mapping all of whose keys are such keeps the single key [""]
    (with the value of its last entry), and so does the inventory of a
    migrated record; the monster's slug becomes [""]. *)
Theorem no_underscore_rewritten_to_empty (key slug : string)
    (items mon : dict) :
  contains "_" key = false ->
  plain_keys items = true ->
  dict_get "slug" mon = Some (VStr slug) ->
  contains "_" slug = false ->
  partition_2 "_" key = "" /\
  fix_items (VDict items)
  = Return (VDict match items with
                  | [] => []
                  | kv :: r => [("", snd (last r kv))]
                  end) /\
  fix_mon (VDict mon) = Return (VDict (dict_set "slug" (VStr "") mon)) /\
  upgrade_save (VDict [("inventory", VDict items); ("monsters", VList [VDict mon])])
  = Return (VDict [("inventory",
                    VDict match items with
                          | [] => []
                          | kv :: r => [("", snd (last r kv))]
                          end);
                   ("monsters", VList [VDict (dict_set "slug" (VStr "") mon)])]).
Proof.
  intros K P S Q. repeat split.
  - now apply partition_2_no_sep.
  - now apply fix_items_plain_keys.
  - now apply (fix_mon_plain_slug mon slug).
  - unfold upgrade_save.
    cbn [dict_get_default dict_get String.eqb Ascii.eqb Bool.eqb py_eq_int Z.eqb].
    rewrite (fix_items_plain_keys items P).
    cbn [bind dict_set dict_get_default dict_get String.eqb Ascii.eqb Bool.eqb
         fix_items fold_left fix_mons mapM].
    rewrite (fix_mon_plain_slug mon slug S Q). reflexivity.
Qed.

Lemma no_underscore_rewritten_to_empty_witness :
  partition_2 "_" "potion" = "" /\
  fix_items (VDict [("potion", VInt 3); ("elixir", VInt 1)])
  = Return (VDict [("", VInt 1)]) /\
  fix_mon (VDict [("slug", VStr "pidgey"); ("level", VInt 2)])
  = Return (VDict [("slug", VStr ""); ("level", VInt 2)]) /\
  upgrade_save
    (VDict [("inventory", VDict [("potion", VInt 3); ("elixir", VInt 1)]);
            ("monsters", VList [VDict [("slug", VStr "pidgey"); ("level", VInt 2)]])])
  = Return
      (VDict [("inventory", VDict [("", VInt 1)]);
              ("monsters", VList [VDict [("slug", VStr ""); ("level", VInt 2)]])]).
Proof.
  apply (no_underscore_rewritten_to_empty "potion" "pidgey"
           [("potion", VInt 3); ("elixir", VInt 1)]
           [("slug", VStr "pidgey"); ("level", VInt 2)]); reflexivity.
Defined.

(** C6, as stated: a key without an underscore would come out of the
    migration unchanged.  The key ["potion"] does not. *)
Lemma no_underscore_key_is_changed :
  contains "_" "potion" = false /\
  partition_2 "_" "potion" <> "potion" /\
  upgrade_save plain_inventory = Return (VDict [("inventory", VDict [("", VInt 3)])]) /\
  upgrade_save plain_inventory <> Return plain_inventory.
Proof.
  repeat split; discriminate.
Qed.

(** *** Records that are already current *)

Lemma upgrade_save_skips (sd : dict) (version : value) :
  dict_get "version" sd = Some version ->
  py_eq_int version 0 = false ->
  upgrade_save (VDict sd) = Return (VDict sd).
Proof.
  intros G N. unfold upgrade_save, dict_get_default. now rewrite G, N.
Qed.

(** What the game writes is stamped with version 1, so the migration
    leaves it alone when it is loaded again. *)
Lemma upgrade_save_of_written (state : dict) (screenshot : string)
    (width height : Z) (now : string) :
  let written := get_save_data state screenshot width height now in
  dict_get "version" written = Some (VInt 1) /\
  upgrade_save (VDict written) = Return (VDict written).
Proof.
  intros written.
  assert (G : dict_get "version" written = Some (VInt 1))
    by apply dict_get_set_same.
  split; [exact G |]. now apply (upgrade_save_skips _ _ G).
Qed.

(** X15. The rewrite of a text is stable under a second rewrite only when it
    is empty. *)
Lemma partition_2_twice (sep : ascii) (s : string) :
  partition_2 sep (partition_2 sep s) = partition_2 sep s
  <-> partition_2 sep s = "".
Proof.
  split.
  - intros H. destruct (partition_2 sep s) as [| c t] eqn:E; [reflexivity |].
    destruct (partition_2_length sep (String c t)) as [_ L].
    rewrite H in L. exfalso. apply (Nat.lt_irrefl (String.length (String c t))).
    apply L. discriminate.
  - intros ->. reflexivity.
Qed.

(** C1 (amended). A record whose [version] field is there and is not 0
    (1, for the current schema) comes back from [upgrade_save] as it
    went in, so a second pass changes nothing either. *)
Theorem upgrade_save_current_unchanged (sd : dict) (version : value) :
  dict_get "version" sd = Some version ->
  py_eq_int version 0 = false ->
  upgrade_save (VDict sd) = Return (VDict sd) /\
  (r <- upgrade_save (VDict sd) ;; upgrade_save r) = upgrade_save (VDict sd).
Proof.
  intros G N.
  assert (U : upgrade_save (VDict sd) = Return (VDict sd))
    by exact (upgrade_save_skips sd version G N).
  split; [exact U |]. rewrite U. cbn [bind]. exact U.
Qed.

Lemma upgrade_save_current_unchanged_witness :
  upgrade_save (VDict current_record) = Return (VDict current_record) /\
  (r <- upgrade_save (VDict current_record) ;; upgrade_save r)
  = upgrade_save (VDict current_record).
Proof.
  apply (upgrade_save_current_unchanged current_record (VInt 1)); reflexivity.
Defined.

(** Equal to 1 is one way of not being 0. *)
Lemma py_eq_int_1_not_0 (v : value) :
  py_eq_int v 1 = true -> py_eq_int v 0 = false.
Proof.
  destruct v as [| b | z | f | s | l | d]; simpl; try discriminate.
  - now destruct b.
  - intros H. apply Z.eqb_eq in H. now subst z.
  - destruct f as [s | s | | s m e]; simpl; try discriminate.
    destruct (0 <=? e) eqn:E; intros H; apply Z.eqb_eq in H; apply Z.eqb_neq.
    + intros H0. rewrite H0 in H. discriminate.
    + apply Z.leb_gt in E.
      assert (0 < 2 ^ (- e)) by (apply Z.pow_pos_nonneg; lia).
      destruct s; lia.
Qed.

(** C1, as stated: a second pass over any record would change nothing.
    A record without a [version] is not stamped by the first pass, so the
    second pass strips the keys again: ["item_potion"] becomes
    ["potion"], then [""]. *)
Lemma upgrade_save_twice_differs :
  upgrade_save legacy_inventory = Return plain_inventory /\
  upgrade_save plain_inventory = Return (VDict [("inventory", VDict [("", VInt 3)])]) /\
  (r <- upgrade_save legacy_inventory ;; upgrade_save r)
  <> upgrade_save legacy_inventory.
Proof.
  repeat split. discriminate.
Qed.

(** *** The worked example *)

(** C2 (amended). The version-0 example record migrates to inventory
    key ["potion"] with 3, chest item key ["elixir"] with 1, chest
    monster slug ["rattata"], top-level monster slug ["pidgey"]; the
    result has no [version] field. *)
Theorem upgrade_save_legacy_example :
  upgrade_save legacy_record = Return migrated_record /\
  (exists out chest,
     migrated_record = VDict out /\
     dict_get "inventory" out = Some (VDict [("potion", VInt 3)]) /\
     dict_get "storage" out = Some (VDict chest) /\
     dict_get "items" chest = Some (VDict [("elixir", VInt 1)]) /\
     dict_get "monsters" chest
     = Some (VList [VDict [("slug", VStr "rattata"); ("level", VInt 5)]]) /\
     dict_get "monsters" out
     = Some (VList [VDict [("slug", VStr "pidgey"); ("level", VInt 2)]]) /\
     dict_get "version" out = None).
Proof.
  split; [reflexivity |].
  eexists. eexists. repeat split.
Qed.

(** C2, as stated: the migrated example would carry [version] 1.  It
    carries no [version] at all. *)
Lemma upgrade_save_legacy_example_unstamped :
  ~ exists out version,
      upgrade_save legacy_record = Return (VDict out) /\
      dict_get "version" out = Some version /\
      py_eq_int version 1 = true.
Proof.
  intros (out & version & U & G & _).
  injection U as <-. discriminate G.
Qed.

(** *** When the rewrite runs through *)

Lemma field_ok_default (ok : value -> bool) (k : string) (dflt : value) (d : dict) :
  ok dflt = true ->
  field_ok ok k d = ok (dict_get_default k dflt d).
Proof.
  intros D. unfold field_ok, dict_get_default.
  now destruct (dict_get k d).
Qed.

Lemma fix_items_returns (data : value) :
  is_dict data = true <-> exists d, fix_items data = Return (VDict d).
Proof.
  split.
  - destruct data; try discriminate. intros _. simpl. eauto.
  - intros [d H]. destruct data; try discriminate. reflexivity.
Qed.

Lemma fix_mon_returns (mon : value) :
  mon_ok mon = true <-> exists mon', fix_mon mon = Return mon'.
Proof.
  unfold mon_ok, fix_mon. split.
  - destruct mon as [| | | | | | d]; try discriminate. simpl.
    destruct (dict_get "slug" d) as [[] |]; try discriminate. simpl. eauto.
  - intros [mon' H]. destruct mon as [| | | | | | d]; try discriminate.
    simpl in H. destruct (dict_get "slug" d) as [[] |]; try discriminate.
    reflexivity.
Qed.

Lemma mapM_fix_mon_returns (l : list value) :
  forallb mon_ok l = true <-> exists l', mapM fix_mon l = Return l'.
Proof.
  induction l as [| mon l IH]; simpl.
  - split; eauto.
  - rewrite andb_true_iff, IH, fix_mon_returns. split.
    + intros [[mon' Hm] [l' Hl]]. rewrite Hm, Hl. simpl. eauto.
    + intros [l' H]. destruct (fix_mon mon) as [mon' |]; [| discriminate].
      simpl in H. destruct (mapM fix_mon l) as [l0 |]; [| discriminate].
      eauto.
Qed.

Lemma fix_mons_returns (mons : value) :
  mons_ok mons = true <-> exists mons', fix_mons mons = Return mons'.
Proof.
  unfold mons_ok, fix_mons.
  destruct mons as [| | | | s | l | d].
  1-4: split; [discriminate | intros [? ?]; discriminate].
  - destruct s; split; eauto; try discriminate. intros [? ?]. discriminate.
  - rewrite mapM_fix_mon_returns. split.
    + intros [l' H]. rewrite H. simpl. eauto.
    + intros [m H]. destruct (mapM fix_mon l); [eauto | discriminate].
  - destruct d; split; eauto; try discriminate. intros [? ?]. discriminate.
Qed.

(** The rewrite of a version-0 record returns exactly on the records of
    the expected shape. *)
Lemma upgrade_save_returns_iff (sd : dict) :
  py_eq_int (dict_get_default "version" (VInt 0) sd) 0 = true ->
  well_shaped sd = true <-> exists out, upgrade_save (VDict sd) = Return (VDict out).
Proof.
  intros V. unfold upgrade_save, well_shaped. rewrite V.
  rewrite (field_ok_default is_dict "inventory" (VDict [])) by reflexivity.
  rewrite (field_ok_default chest_ok "storage" (VDict [])) by reflexivity.
  rewrite (field_ok_default mons_ok "monsters" (VList [])) by reflexivity.
  rewrite !andb_true_iff, fix_items_returns.
  destruct (fix_items (dict_get_default "inventory" (VDict []) sd))
    as [inventory |] eqn:FI.
  2: { split; [intros [[[d H] _] _]; discriminate | intros [out H]; discriminate]. }
  cbn [bind].
  destruct (dict_get_default "storage" (VDict []) sd) as [| | | | | | ch].
  1-6: split; [intros [[_ H] _]; discriminate | intros [out H]; discriminate].
  cbn [chest_ok].
  rewrite (field_ok_default is_dict "items" (VDict [])) by reflexivity.
  rewrite (field_ok_default mons_ok "monsters" (VList [])) by reflexivity.
  rewrite !andb_true_iff, fix_items_returns.
  destruct (fix_items (dict_get_default "items" (VDict []) ch)) as [items |] eqn:FC.
  2: { split; [intros [[_ [[d H] _]] _]; discriminate | intros [out H]; discriminate]. }
  cbn [bind]. rewrite !dict_get_default_set_other by reflexivity.
  rewrite !fix_mons_returns.
  destruct (fix_mons (dict_get_default "monsters" (VList []) sd)) as [mt |].
  2: { split; [intros [_ [m H]]; discriminate | intros [out H]; discriminate]. }
  cbn [bind].
  destruct (fix_mons (dict_get_default "monsters" (VList []) ch)) as [mc |].
  2: { split; [intros [[_ [_ [m H]]] _]; discriminate | intros [out H]; discriminate]. }
  cbn [bind].
  destruct inventory;
    try (simpl in FI; destruct (dict_get_default "inventory" (VDict []) sd);
         discriminate).
  destruct items;
    try (simpl in FC; destruct (dict_get_default "items" (VDict []) ch);
         discriminate).
  split; eauto 10.
Qed.

(** C7 (amended). [upgrade_save] returns a record, without raising, for
    every record of the expected shape: the inventory, the chest and the
    chest's items, where present, are mappings, and the monster lists,
    where present, are lists of mappings that each have a text [slug].
    The inventory, the chest, its items and the monster lists may be
    missing: a record with none of them gets an empty inventory and is
    otherwise unchanged. *)
Theorem upgrade_save_total_on_shape (sd : dict) :
  well_shaped sd = true ->
  (exists out, upgrade_save (VDict sd) = Return (VDict out)) /\
  (dict_get "version" sd = None ->
   dict_get "inventory" sd = None ->
   dict_get "storage" sd = None ->
   dict_get "monsters" sd = None ->
   upgrade_save (VDict sd) = Return (VDict (dict_set "inventory" (VDict []) sd))).
Proof.
  intros W. split.
  - destruct (py_eq_int (dict_get_default "version" (VInt 0) sd) 0) eqn:V.
    + now apply upgrade_save_returns_iff.
    + exists sd. unfold upgrade_save. now rewrite V.
  - intros V I S M. unfold upgrade_save, dict_get_default.
    rewrite V, I, S. cbn [py_eq_int Z.eqb fix_items fold_left bind dict_get].
    rewrite dict_get_set_other by reflexivity. rewrite M.
    change (dict_get "monsters" (dict_set "items" (VDict []) []))
      with (@None value).
    cbn [fix_mons mapM bind dict_set].
    rewrite (write_back_absent "monsters" _ (dict_set "inventory" _ sd)).
    2: { rewrite dict_get_set_other by reflexivity. exact M. }
    rewrite (write_back_absent "storage").
    2: { rewrite dict_get_set_other by reflexivity. exact S. }
    reflexivity.
Qed.

Lemma upgrade_save_total_on_shape_witness :
  (exists out, upgrade_save (VDict bare_record) = Return (VDict out)) /\
  (dict_get "version" bare_record = None ->
   dict_get "inventory" bare_record = None ->
   dict_get "storage" bare_record = None ->
   dict_get "monsters" bare_record = None ->
   upgrade_save (VDict bare_record)
   = Return (VDict (dict_set "inventory" (VDict []) bare_record))).
Proof.
  apply (upgrade_save_total_on_shape bare_record). reflexivity.
Defined.

(** C7, as stated: [upgrade_save] would return on every record, also on
    one whose monster has no [slug].  There it raises [KeyError]. *)
Lemma upgrade_save_raises_without_slug :
  upgrade_save slugless_record = Raise KeyError /\
  ~ exists out, upgrade_save slugless_record = Return out.
Proof.
  split; [reflexivity |]. intros [out H]. discriminate H.
Qed.

(** Fields of the wrong type are errors as well. *)
Example upgrade_save_inventory_list :
  upgrade_save (VDict [("inventory", VList [])]) = Raise AttributeError.
Proof. reflexivity. Qed.

Example upgrade_save_storage_null :
  upgrade_save (VDict [("storage", VNone)]) = Raise AttributeError.
Proof. reflexivity. Qed.

Example upgrade_save_monsters_number :
  upgrade_save (VDict [("monsters", VInt 3)]) = Raise TypeError.
Proof. reflexivity. Qed.

Example upgrade_save_slug_number :
  upgrade_save (VDict [("monsters", VList [VDict [("slug", VInt 7)]])])
  = Raise AttributeError.
Proof. reflexivity. Qed.


(* ===================================================================== *)
(** * Further properties *)
(* ===================================================================== *)

(** ** The reader *)

(** X1. An [IOError] never leaves the reader, and a [ValueError] leaves
    it only when [open] itself raised it, as it does for a path with a
    NUL character: [open] stands under the handler for [IOError] alone,
    while the decode errors of the two decoders are handled inside. *)
Theorem open_save_file_handles_its_errors (env : Env) (path : string) :
  open_save_file env path <> Raise IOError /\
  (open_save_file env path = Raise ValueError <->
   env.(fs) path = Raise ValueError).
Proof.
  destruct (env.(fs) path) as [text | e] eqn:H.
  - rewrite (open_save_file_present _ _ _ H). cbv zeta.
    destruct (fst (json_load env _)) as [v | []];
      cbn [try_except is_ValueError is_IOError];
      try (split; [discriminate | split; discriminate]).
    destruct (cbor_load env _) as [v | []];
      cbn [try_except is_ValueError is_IOError];
      split; try discriminate; split; discriminate.
  - rewrite (open_save_file_open_raises _ _ _ H).
    destruct e; cbn [is_IOError]; split; try discriminate;
      split; try discriminate; reflexivity.
Qed.

(** A path with a NUL in it: [open] raises [ValueError] and the reader
    lets it through. *)
Example open_save_file_nul_path :
  open_save_file no_saves_world (String NUL "saves/slot1.save")
  = Raise ValueError.
Proof. reflexivity. Qed.

(** X2. The second decoder does not see the file.  [json.load] has read
    the file to its end when [cbor.load] gets the same file object, so
    for a file that the JSON decoder refuses the result is what the
    CBOR decoder makes of the empty text, and two such files, whatever
    they hold, read the same. *)
Theorem open_save_file_second_decoder_blind (env : Env)
    (path1 path2 text1 text2 : string) (loads : string -> outcome value) :
  env.(fs) path1 = Return text1 ->
  env.(fs) path2 = Return text2 ->
  env.(json_loads) text1 = Raise ValueError ->
  env.(json_loads) text2 = Raise ValueError ->
  env.(cbor_loads) = Some loads ->
  open_save_file env path1
  = try_except (try_except (loads "") is_ValueError (Return (VDict [])))
      is_IOError (Return VNone) /\
  open_save_file env path1 = open_save_file env path2.
Proof.
  intros F1 F2 J1 J2 C.
  rewrite (open_save_file_json_refused _ _ _ F1 J1),
    (open_save_file_json_refused _ _ _ F2 J2), C.
  split; reflexivity.
Qed.

Lemma open_save_file_second_decoder_blind_witness :
  open_save_file two_garbage_world "saves/slot1.save"
  = try_except (try_except (Raise EOFError) is_ValueError (Return (VDict [])))
      is_IOError (Return VNone) /\
  open_save_file two_garbage_world "saves/slot1.save"
  = open_save_file two_garbage_world "saves/slot2.save".
Proof.
  apply (open_save_file_second_decoder_blind two_garbage_world
           "saves/slot1.save" "saves/slot2.save" "garbage" "rubbish"
           (fun text => match text with
                        | EmptyString => Raise EOFError
                        | _ => Raise ValueError
                        end)); reflexivity.
Defined.

(** X3. When [import cbor] failed, a file that is not JSON makes the reader
    raise [NameError], and [load] with it. *)
Theorem load_without_cbor (env : Env) (slot : Z) (text : string) :
  env.(fs) (save_path_of env.(SAVE_PATH) slot) = Return text ->
  env.(json_loads) text = Raise ValueError ->
  env.(cbor_loads) = None ->
  open_save_file env (save_path_of env.(SAVE_PATH) slot) = Raise NameError /\
  load env slot = Raise NameError.
Proof.
  intros F J C.
  assert (O := open_save_file_without_cbor env _ _ F J C).
  split; [exact O |]. unfold load. now rewrite O.
Qed.

Lemma load_without_cbor_witness :
  open_save_file no_cbor_world (save_path_of no_cbor_world.(SAVE_PATH) 1)
  = Raise NameError /\
  load no_cbor_world 1 = Raise NameError.
Proof.
  apply (load_without_cbor no_cbor_world 1 "garbage"); reflexivity.
Defined.

(** ** [load] *)

Lemma dict_set_not_nil (k : string) (v : value) (d : dict) :
  dict_set k v d <> [].
Proof.
  destruct d as [| [k' v'] d]; simpl; [discriminate |].
  destruct (k' =? k)%string; discriminate.
Qed.

Lemma write_back_not_nil (k : string) (v : value) (d : dict) :
  d <> [] -> write_back k v d <> [].
Proof.
  intros N. unfold write_back. destruct (dict_has k d); [| exact N].
  apply dict_set_not_nil.
Qed.

(** What [upgrade_save] returns is a dict with at least one key. *)
Lemma upgrade_save_not_empty (save_data v : value) :
  upgrade_save save_data = Return v -> exists d, v = VDict d /\ d <> [].
Proof.
  unfold upgrade_save. destruct save_data as [| | | | | | sd]; try discriminate.
  destruct (py_eq_int (dict_get_default "version" (VInt 0) sd) 0) eqn:V.
  - destruct (fix_items _) as [inventory |]; [cbn [bind] | discriminate].
    destruct (dict_get_default "storage" (VDict []) sd) as [| | | | | | ch];
      try discriminate.
    destruct (fix_items _) as [items |]; [cbn [bind] | discriminate].
    destruct (fix_mons _) as [mt |]; [cbn [bind] | discriminate].
    destruct (fix_mons _) as [mc |]; [cbn [bind] | discriminate].
    intros [= <-]. eexists. split; [reflexivity |].
    do 2 apply write_back_not_nil. apply dict_set_not_nil.
  - intros [= <-]. exists sd. split; [reflexivity |].
    intros ->. discriminate V.
Qed.

(** X4. Whatever the slot holds, when [load] returns it returns [None] or
    a dict with at least one key: never the empty dict, never a list, a
    number or a text. *)
Theorem load_returns_none_or_record (env : Env) (slot : Z) (v : value) :
  load env slot = Return v ->
  v = VNone \/ exists d, v = VDict d /\ d <> [].
Proof.
  unfold load.
  destruct (open_save_file env _) as [save_data |]; [cbn [bind] | discriminate].
  destruct (truthy save_data) eqn:T.
  - intros U. right. exact (upgrade_save_not_empty _ _ U).
  - destruct save_data as [| | | | | | d]; cbn [is_None];
      try (intros [= <-]; now left); try discriminate.
    cbn [py_setitem bind]. intros [= <-]. right.
    eexists. split; [reflexivity |]. apply dict_set_not_nil.
Qed.

Lemma load_returns_none_or_record_witness :
  VDict march_save = VNone \/ exists d, VDict march_save = VDict d /\ d <> [].
Proof.
  apply (load_returns_none_or_record two_saves_world 2). reflexivity.
Defined.

(** X5. A file whose JSON text decodes to a record whose version is there
    and is not 0 loads as exactly that record. *)
Theorem load_current_record (env : Env) (slot : Z) (text : string)
    (sd : dict) (version : value) :
  env.(fs) (save_path_of env.(SAVE_PATH) slot) = Return text ->
  env.(json_loads) text = Return (VDict sd) ->
  dict_get "version" sd = Some version ->
  py_eq_int version 0 = false ->
  load env slot = Return (VDict sd).
Proof.
  intros F D G N. unfold load.
  rewrite (open_save_file_json env _ _ _ F D).
  destruct sd as [| kv sd]; [discriminate G |].
  cbn [bind truthy]. exact (upgrade_save_skips _ _ G N).
Qed.

Lemma load_current_record_witness :
  load current_world 1 = Return (VDict current_record).
Proof.
  apply (load_current_record current_world 1 "current" current_record (VInt 1));
    reflexivity.
Defined.

(** X6. A file from which the reader returns something that is neither a
    dict nor [None] makes [load] raise: [AttributeError] from the
    migration when the value counts as true, [TypeError] from the item
    assignment when it counts as false (an empty list, 0, an empty
    text, [false]). *)
Theorem load_not_a_record (env : Env) (slot : Z) (text : string) (v : value) :
  env.(fs) (save_path_of env.(SAVE_PATH) slot) = Return text ->
  open_save_file env (save_path_of env.(SAVE_PATH) slot) = Return v ->
  is_dict v = false ->
  v <> VNone ->
  load env slot = Raise (if truthy v then AttributeError else TypeError).
Proof.
  intros F D N1 N2. unfold load. rewrite D. cbn [bind].
  destruct v; try discriminate; try congruence;
    destruct (truthy _); reflexivity.
Qed.

Lemma load_not_a_record_witness :
  load list_world 1 = Raise TypeError.
Proof.
  apply (load_not_a_record list_world 1 "[]" (VList [])); try reflexivity.
  discriminate.
Defined.

(** X7. A file from which the reader returns [None], as it does when the
    file holds the JSON text [null], is taken for a missing file: [load]
    returns [None] and the scan for the latest save passes over the
    slot. *)
Theorem null_file_counts_as_missing (env : Env) (slot_index : Z) (text : string)
    (times : list (Z * datetime)) :
  env.(fs) (save_path_of env.(SAVE_PATH) (slot_index + 1)) = Return text ->
  open_save_file env (save_path_of env.(SAVE_PATH) (slot_index + 1))
  = Return VNone ->
  load env (slot_index + 1) = Return VNone /\
  scan_slot env times slot_index = Return times.
Proof.
  intros F D. unfold load, scan_slot. now rewrite D.
Qed.

Lemma null_file_counts_as_missing_witness :
  load null_world (0 + 1) = Return VNone /\
  scan_slot null_world [] 0 = Return [].
Proof.
  apply (null_file_counts_as_missing null_world 0 "null" []); reflexivity.
Defined.

(** ** [upgrade_save] *)

Lemma dict_has_set (k k' : string) (v : value) (d : dict) :
  dict_has k' (dict_set k v d) = ((k =? k')%string || dict_has k' d)%bool.
Proof.
  unfold dict_has. destruct (k =? k')%string eqn:E.
  - apply String.eqb_eq in E. subst k'. now rewrite dict_get_set_same.
  - now rewrite dict_get_set_other.
Qed.

Lemma dict_has_write_back (k k' : string) (v : value) (d : dict) :
  dict_has k' (write_back k v d) = dict_has k' d.
Proof.
  unfold write_back. destruct (dict_has k d) eqn:H; [| reflexivity].
  rewrite dict_has_set. destruct (k =? k')%string eqn:E; [| reflexivity].
  apply String.eqb_eq in E. subst k'. now rewrite H.
Qed.

Lemma dict_get_write_back_same (k : string) (v v0 : value) (d : dict) :
  dict_get k d = Some v0 -> dict_get k (write_back k v d) = Some v.
Proof.
  intros H. unfold write_back, dict_has. rewrite H. apply dict_get_set_same.
Qed.

(** What a version-0 record has gone through when [upgrade_save]
    returns. *)
Lemma upgrade_save_legacy_inv (sd out : dict) :
  py_eq_int (dict_get_default "version" (VInt 0) sd) 0 = true ->
  upgrade_save (VDict sd) = Return (VDict out) ->
  exists inv ch items mt mc,
    fix_items (dict_get_default "inventory" (VDict []) sd) = Return (VDict inv) /\
    dict_get_default "storage" (VDict []) sd = VDict ch /\
    fix_items (dict_get_default "items" (VDict []) ch) = Return (VDict items) /\
    fix_mons (dict_get_default "monsters" (VList []) sd) = Return mt /\
    fix_mons (dict_get_default "monsters" (VList []) ch) = Return mc /\
    out = write_back "storage"
            (VDict (write_back "monsters" mc (dict_set "items" (VDict items) ch)))
            (write_back "monsters" mt (dict_set "inventory" (VDict inv) sd)).
Proof.
  intros V. unfold upgrade_save. rewrite V.
  destruct (fix_items (dict_get_default "inventory" (VDict []) sd))
    as [inventory |] eqn:FI; [cbn [bind] | discriminate].
  destruct (dict_get_default "storage" (VDict []) sd) as [| | | | | | ch];
    try discriminate.
  destruct (fix_items (dict_get_default "items" (VDict []) ch))
    as [items |] eqn:FC; [cbn [bind] | discriminate].
  rewrite !dict_get_default_set_other by reflexivity.
  destruct (fix_mons (dict_get_default "monsters" (VList []) sd))
    as [mt |] eqn:FT; [cbn [bind] | discriminate].
  destruct (fix_mons (dict_get_default "monsters" (VList []) ch))
    as [mc |] eqn:FM; [cbn [bind] | discriminate].
  intros [= <-].
  assert (I : exists inv, inventory = VDict inv).
  { unfold fix_items in FI. destruct (dict_get_default "inventory" _ sd);
      try discriminate. injection FI as <-. eauto. }
  assert (C : exists it, items = VDict it).
  { unfold fix_items in FC. destruct (dict_get_default "items" _ ch);
      try discriminate. injection FC as <-. eauto. }
  destruct I as [inv ->], C as [it ->]. exists inv, ch, it, mt, mc.
  repeat split; assumption.
Qed.

(** X8. [upgrade_save] returns on the records whose version is there and is
    not 0, and on the version-0 records of the expected shape; on every
    other dict it raises. *)
Theorem upgrade_save_returns_exactly (sd : dict) :
  (exists out, upgrade_save (VDict sd) = Return out) <->
  (py_eq_int (dict_get_default "version" (VInt 0) sd) 0 = false \/
   well_shaped sd = true).
Proof.
  destruct (py_eq_int (dict_get_default "version" (VInt 0) sd) 0) eqn:V.
  - rewrite (upgrade_save_returns_iff sd V). split.
    + intros [out U]. right.
      destruct (upgrade_save_not_empty _ _ U) as (d & -> & _). eauto.
    + intros [N | [out U]]; [discriminate | eauto].
  - split; [now left |]. intros _. exists (VDict sd).
    unfold upgrade_save. now rewrite V.
Qed.

(** X9. The migration touches three keys of the record.  Every other key
    keeps its value; no key is added but [inventory] and none is
    dropped; after the rewrite of a version-0 record the inventory is
    there and is a mapping.  In particular the [version] comes out as
    it went in. *)
Theorem upgrade_save_keeps_other_keys (sd out : dict) :
  upgrade_save (VDict sd) = Return (VDict out) ->
  (forall k, k <> "inventory" -> k <> "storage" -> k <> "monsters" ->
             dict_get k out = dict_get k sd) /\
  (forall k, k <> "inventory" -> dict_has k out = dict_has k sd) /\
  dict_get "version" out = dict_get "version" sd /\
  (py_eq_int (dict_get_default "version" (VInt 0) sd) 0 = true ->
   exists inv, dict_get "inventory" out = Some (VDict inv)).
Proof.
  intros U.
  destruct (py_eq_int (dict_get_default "version" (VInt 0) sd) 0) eqn:V.
  - destruct (upgrade_save_legacy_inv sd out V U)
      as (inv & ch & items & mt & mc & _ & _ & _ & _ & _ & ->).
    assert (K : forall k, k <> "inventory" -> k <> "storage" -> k <> "monsters" ->
                          dict_get k (write_back "storage"
                            (VDict (write_back "monsters" mc
                                      (dict_set "items" (VDict items) ch)))
                            (write_back "monsters" mt
                               (dict_set "inventory" (VDict inv) sd)))
                          = dict_get k sd).
    { intros k N1 N2 N3.
      rewrite !dict_get_write_back_other, dict_get_set_other;
        try reflexivity; apply String.eqb_neq; congruence. }
    repeat split.
    + exact K.
    + intros k N. rewrite !dict_has_write_back, dict_has_set.
      apply String.eqb_neq in N. rewrite String.eqb_sym in N. now rewrite N.
    + apply K; discriminate.
    + intros _. exists inv.
      rewrite !dict_get_write_back_other by reflexivity.
      apply dict_get_set_same.
  - unfold upgrade_save in U. rewrite V in U. injection U as <-.
    repeat split. discriminate.
Qed.

Lemma upgrade_save_keeps_other_keys_witness :
  (forall k, k <> "inventory" -> k <> "storage" -> k <> "monsters" ->
             dict_get k (dict_set "inventory" (VDict []) bare_record)
             = dict_get k bare_record) /\
  (forall k, k <> "inventory" ->
             dict_has k (dict_set "inventory" (VDict []) bare_record)
             = dict_has k bare_record) /\
  dict_get "version" (dict_set "inventory" (VDict []) bare_record)
  = dict_get "version" bare_record /\
  (py_eq_int (dict_get_default "version" (VInt 0) bare_record) 0 = true ->
   exists inv,
     dict_get "inventory" (dict_set "inventory" (VDict []) bare_record)
     = Some (VDict inv)).
Proof.
  apply (upgrade_save_keeps_other_keys bare_record). reflexivity.
Defined.

(** *** What the rewrite does to the items *)

Lemma dict_get_set (k k' : string) (v : value) (d : dict) :
  dict_get k (dict_set k' v d)
  = if (k' =? k)%string then Some v else dict_get k d.
Proof.
  destruct (k' =? k)%string eqn:E.
  - apply String.eqb_eq in E. subst k'. apply dict_get_set_same.
  - now apply dict_get_set_other.
Qed.

Lemma find_app {A : Type} (p : A -> bool) (l1 l2 : list A) :
  find p (l1 ++ l2)%list
  = match find p l1 with Some x => Some x | None => find p l2 end.
Proof.
  induction l1 as [| x l1 IH]; simpl; [reflexivity |].
  now destruct (p x).
Qed.

Lemma fold_fix_items_lookup (d acc : dict) (k : string) :
  dict_get k (fold_left
                (fun acc kv => dict_set (partition_2 "_" (fst kv)) (snd kv) acc)
                d acc)
  = match find (fun kv => (partition_2 "_" (fst kv) =? k)%string) (rev d) with
    | Some kv => Some (snd kv)
    | None => dict_get k acc
    end.
Proof.
  revert acc. induction d as [| kv d IH]; intros acc; [reflexivity |].
  cbn [fold_left rev]. rewrite IH, find_app. cbn [find].
  destruct (find _ (rev d)); [reflexivity |].
  rewrite dict_get_set. now destruct (partition_2 "_" (fst kv) =? k)%string.
Qed.

(** X10. [fix_items] returns on every dict, and a key of the result holds
    the value of the last entry of the original that is rewritten to
    that key: when two keys come out the same, the later one wins. *)
Theorem fix_items_last_wins (d : dict) :
  exists out,
    fix_items (VDict d) = Return (VDict out) /\
    forall k,
      dict_get k out
      = option_map snd
          (find (fun kv => (partition_2 "_" (fst kv) =? k)%string) (rev d)).
Proof.
  eexists. split; [reflexivity |]. intros k.
  rewrite fold_fix_items_lookup. now destruct (find _ (rev d)).
Qed.

Lemma dict_get_app_fresh (k k' : string) (v : value) (d : dict) :
  (k' =? k)%string = false ->
  dict_get k (d ++ [(k', v)])%list = dict_get k d.
Proof.
  intros N. induction d as [| [k0 v0] d IH]; simpl.
  - now rewrite N.
  - now rewrite IH.
Qed.

Lemma dict_set_fresh (k : string) (v : value) (d : dict) :
  dict_get k d = None -> dict_set k v d = (d ++ [(k, v)])%list.
Proof.
  induction d as [| [k0 v0] d IH]; simpl; [reflexivity |].
  destruct (k0 =? k)%string; [discriminate |].
  intros H. now rewrite IH.
Qed.

Lemma fold_fix_items_distinct (d acc : dict) :
  distinct (rewritten_keys d) = true ->
  (forall kv, In kv d -> dict_get (partition_2 "_" (fst kv)) acc = None) ->
  fold_left (fun acc kv => dict_set (partition_2 "_" (fst kv)) (snd kv) acc) d acc
  = (acc ++ map renamed d)%list.
Proof.
  revert acc. induction d as [| kv d IH]; intros acc D F.
  - simpl. now rewrite app_nil_r.
  - cbn [rewritten_keys map distinct] in D.
    apply andb_true_iff in D. destruct D as [Dk Dd].
    apply negb_true_iff in Dk.
    cbn [fold_left map]. rewrite dict_set_fresh by (apply F; now left).
    rewrite IH.
    + now rewrite <- app_assoc.
    + exact Dd.
    + intros kv' I. rewrite dict_get_app_fresh; [apply F; now right |].
      destruct (partition_2 "_" (fst kv) =? partition_2 "_" (fst kv'))%string
        eqn:E; [| reflexivity].
      rewrite <- Dk. symmetry. apply existsb_exists.
      exists (partition_2 "_" (fst kv')). split; [| exact E].
      unfold rewritten_keys. apply in_map_iff. eauto.
Qed.

(** X11. When the rewritten keys are pairwise different, [fix_items] is a
    plain renaming: the entries keep their order and their values, each
    under its rewritten key. *)
Theorem fix_items_renames (d : dict) :
  distinct (rewritten_keys d) = true ->
  fix_items (VDict d) = Return (VDict (map renamed d)).
Proof.
  intros D. unfold fix_items.
  now rewrite (fold_fix_items_distinct d [] D).
Qed.

Lemma fix_items_renames_witness :
  fix_items (VDict [("item_potion", VInt 3); ("item_elixir", VInt 1)])
  = Return (VDict (map renamed [("item_potion", VInt 3); ("item_elixir", VInt 1)])).
Proof.
  apply (fix_items_renames [("item_potion", VInt 3); ("item_elixir", VInt 1)]).
  reflexivity.
Defined.

(** X12. In a migrated version-0 record the inventory and the chest's items
    are what [fix_items] makes of the original ones (of the empty
    mapping where there was none); the later steps of the migration do
    not touch them. *)
Theorem upgrade_save_rewrites_items (sd out ch : dict) :
  py_eq_int (dict_get_default "version" (VInt 0) sd) 0 = true ->
  upgrade_save (VDict sd) = Return (VDict out) ->
  dict_get "storage" sd = Some (VDict ch) ->
  exists inventory ch' items,
    fix_items (dict_get_default "inventory" (VDict []) sd) = Return inventory /\
    dict_get "inventory" out = Some inventory /\
    dict_get "storage" out = Some (VDict ch') /\
    fix_items (dict_get_default "items" (VDict []) ch) = Return items /\
    dict_get "items" ch' = Some items.
Proof.
  intros V U S.
  destruct (upgrade_save_legacy_inv sd out V U)
    as (inv & ch0 & items & mt & mc & FI & SC & FC & _ & _ & ->).
  unfold dict_get_default in SC at 1. rewrite S in SC. injection SC as <-.
  exists (VDict inv). eexists. exists (VDict items). repeat split.
  - exact FI.
  - rewrite !dict_get_write_back_other by reflexivity.
    apply dict_get_set_same.
  - apply (dict_get_write_back_same _ _ (VDict ch)).
    rewrite dict_get_write_back_other by reflexivity.
    now rewrite dict_get_set_other.
  - exact FC.
  - rewrite dict_get_write_back_other by reflexivity.
    apply dict_get_set_same.
Qed.

Lemma upgrade_save_rewrites_items_witness :
  exists inventory ch' items,
    fix_items (dict_get_default "inventory" (VDict [])
                 [("storage", VDict [("items", VDict [("item_elixir", VInt 1)])])])
    = Return inventory /\
    dict_get "inventory"
      [("storage", VDict [("items", VDict [("elixir", VInt 1)])]);
       ("inventory", VDict [])]
    = Some inventory /\
    dict_get "storage"
      [("storage", VDict [("items", VDict [("elixir", VInt 1)])]);
       ("inventory", VDict [])]
    = Some (VDict ch') /\
    fix_items (dict_get_default "items" (VDict [])
                 [("items", VDict [("item_elixir", VInt 1)])])
    = Return items /\
    dict_get "items" ch' = Some items.
Proof.
  apply (upgrade_save_rewrites_items
           [("storage", VDict [("items", VDict [("item_elixir", VInt 1)])])]
           [("storage", VDict [("items", VDict [("elixir", VInt 1)])]);
            ("inventory", VDict [])]
           [("items", VDict [("item_elixir", VInt 1)])]); reflexivity.
Defined.

(** *** What the rewrite does to the monsters *)

Lemma mapM_fix_mon_rewrites (l l' : list value) :
  mapM fix_mon l = Return l' -> Forall2 slug_rewritten l l'.
Proof.
  revert l'. induction l as [| mon l IH]; intros l'; simpl.
  - intros [= <-]. constructor.
  - destruct (fix_mon mon) as [mon' |] eqn:F; [cbn [bind] | discriminate].
    destruct (mapM fix_mon l) as [l0 |]; [cbn [bind] | discriminate].
    intros [= <-]. constructor; [| now apply IH].
    unfold fix_mon, py_getitem in F.
    destruct mon as [| | | | | | d]; try discriminate.
    destruct (dict_get "slug" d) as [[| | | | slug | |] |] eqn:G;
      try discriminate.
    cbn [bind py_setitem] in F. injection F as <-.
    exists d, slug. repeat split. exact G.
Qed.

Lemma fix_mons_list (l : list value) (mons' : value) :
  fix_mons (VList l) = Return mons' ->
  exists l', mons' = VList l' /\ Forall2 slug_rewritten l l'.
Proof.
  cbn [fix_mons]. destruct (mapM fix_mon l) as [l' |] eqn:M; [| discriminate].
  cbn [bind]. intros [= <-]. exists l'. split; [reflexivity |].
  now apply mapM_fix_mon_rewrites.
Qed.

(** X13. The monsters of a migrated version-0 record, at the top level and
    in the chest, are the original monsters, as many and in the same
    order, each with its slug rewritten and nothing else changed. *)
Theorem upgrade_save_rewrites_monsters (sd out : dict) :
  py_eq_int (dict_get_default "version" (VInt 0) sd) 0 = true ->
  upgrade_save (VDict sd) = Return (VDict out) ->
  (forall l, dict_get "monsters" sd = Some (VList l) ->
             exists l', dict_get "monsters" out = Some (VList l') /\
                        Forall2 slug_rewritten l l') /\
  (forall ch l, dict_get "storage" sd = Some (VDict ch) ->
                dict_get "monsters" ch = Some (VList l) ->
                exists ch' l',
                  dict_get "storage" out = Some (VDict ch') /\
                  dict_get "monsters" ch' = Some (VList l') /\
                  Forall2 slug_rewritten l l').
Proof.
  intros V U.
  destruct (upgrade_save_legacy_inv sd out V U)
    as (inv & ch0 & items & mt & mc & _ & SC & _ & FT & FM & ->).
  split.
  - intros l G. unfold dict_get_default in FT. rewrite G in FT.
    destruct (fix_mons_list _ _ FT) as (l' & -> & R).
    exists l'. split; [| exact R].
    rewrite dict_get_write_back_other by reflexivity.
    apply (dict_get_write_back_same _ _ (VList l)).
    now rewrite dict_get_set_other.
  - intros ch l S G. unfold dict_get_default in SC at 1. rewrite S in SC.
    injection SC as <-.
    unfold dict_get_default in FM. rewrite G in FM.
    destruct (fix_mons_list _ _ FM) as (l' & -> & R).
    eexists. exists l'. repeat split; [| | exact R].
    + apply (dict_get_write_back_same _ _ (VDict ch)).
      rewrite dict_get_write_back_other by reflexivity.
      now rewrite dict_get_set_other.
    + apply (dict_get_write_back_same _ _ (VList l)).
      now rewrite dict_get_set_other.
Qed.

Lemma upgrade_save_rewrites_monsters_witness :
  exists l',
    dict_get "monsters"
      [("monsters", VList [VDict [("slug", VStr "pidgey"); ("level", VInt 2)]]);
       ("inventory", VDict [])]
    = Some (VList l') /\
    Forall2 slug_rewritten
      [VDict [("slug", VStr "mon_pidgey"); ("level", VInt 2)]] l'.
Proof.
  apply (proj1 (upgrade_save_rewrites_monsters
                  [("monsters",
                    VList [VDict [("slug", VStr "mon_pidgey"); ("level", VInt 2)]])]
                  [("monsters",
                    VList [VDict [("slug", VStr "pidgey"); ("level", VInt 2)]]);
                   ("inventory", VDict [])]
                  eq_refl eq_refl)).
  reflexivity.
Defined.

(** *** The key rewrite *)

(** X14. A text with an underscore is its rewrite behind a prefix that has no
    underscore and the underscore: the rewrite drops exactly the text up
    to and with the first underscore. *)
Theorem partition_2_strips_prefix (sep : ascii) (s : string) :
  contains sep s = true ->
  exists prefix,
    contains sep prefix = false /\
    s = prefix ++ String sep (partition_2 sep s).
Proof.
  induction s as [| c s IH]; [discriminate |].
  rewrite partition_2_cons. cbn [contains].
  destruct (Ascii.eqb c sep) eqn:E.
  - intros _. apply Ascii.eqb_eq in E. subst c. exists "". now split.
  - cbn [orb]. intros H. destruct (IH H) as (prefix & P & S).
    exists (String c prefix). split.
    + cbn [contains]. now rewrite E, P.
    + cbn [append]. now rewrite <- S.
Qed.

Lemma partition_2_strips_prefix_witness :
  exists prefix,
    contains "_" prefix = false /\
    "item_big_potion" = prefix ++ String "_" (partition_2 "_" "item_big_potion").
Proof.
  apply (partition_2_strips_prefix "_" "item_big_potion"). reflexivity.
Defined.

(** ** [get_save_data] *)

(** X16. The record that is written carries version 1, the time and the
    screenshot with its size, whatever the state held under these keys;
    every other key of the state is kept; and [upgrade_save] leaves the
    record as it is. *)
Theorem get_save_data_stamps (state : dict) (screenshot : string)
    (width height : Z) (now : string) :
  let written := get_save_data state screenshot width height now in
  dict_get "version" written = Some (VInt 1) /\
  dict_get "time" written = Some (VStr now) /\
  dict_get "screenshot" written = Some (VStr screenshot) /\
  dict_get "screenshot_width" written = Some (VInt width) /\
  dict_get "screenshot_height" written = Some (VInt height) /\
  (forall k, k <> "version" -> k <> "time" -> k <> "screenshot" ->
             k <> "screenshot_width" -> k <> "screenshot_height" ->
             dict_get k written = dict_get k state) /\
  upgrade_save (VDict written) = Return (VDict written).
Proof.
  intros written. unfold written, get_save_data.
  repeat split.
  - apply dict_get_set_same.
  - rewrite dict_get_set_other by reflexivity. apply dict_get_set_same.
  - rewrite !dict_get_set_other by reflexivity. apply dict_get_set_same.
  - rewrite !dict_get_set_other by reflexivity. apply dict_get_set_same.
  - rewrite !dict_get_set_other by reflexivity. apply dict_get_set_same.
  - intros k N1 N2 N3 N4 N5.
    rewrite !dict_get_set_other; try reflexivity;
      apply String.eqb_neq; congruence.
  - apply (upgrade_save_skips _ (VInt 1)); [apply dict_get_set_same | reflexivity].
Qed.

(** ** [save] *)

Lemma string_length_append (s t : string) :
  String.length (s ++ t) = (String.length s + String.length t)%nat.
Proof.
  induction s as [| c s IH]; simpl; [reflexivity | now rewrite IH].
Qed.

Lemma append_inj_l (base a b : string) : base ++ a = base ++ b -> a = b.
Proof.
  induction base as [| c base IH]; simpl; [auto |].
  intros [= H]. auto.
Qed.

Lemma append_inj_r (a b t : string) : a ++ t = b ++ t -> a = b.
Proof.
  revert b. induction a as [| c a IH]; intros [| c' b] H; simpl in H.
  - reflexivity.
  - apply (f_equal String.length) in H. simpl in H.
    rewrite string_length_append in H. lia.
  - apply (f_equal String.length) in H. simpl in H.
    rewrite string_length_append in H. lia.
  - injection H as -> H. f_equal. now apply IH.
Qed.

(** [str] writes different integers differently. *)
Lemma str_inj (a b : Z) : str a = str b -> a = b.
Proof.
  unfold str. intros H. apply DecimalZ.to_int_inj.
  assert (N : forall z, Z.to_int z <> Decimal.Pos Decimal.Nil /\
                        Z.to_int z <> Decimal.Neg Decimal.Nil).
  { intros [| p | p]; split; try discriminate;
      intros [= E]; exact (DecimalPos.Unsigned.to_uint_nonnil p E). }
  assert (E : Some (Z.to_int a) = Some (Z.to_int b)).
  { rewrite <- (NilZero.isi (Z.to_int a)), <- (NilZero.isi (Z.to_int b));
      try apply N. now rewrite H. }
  now injection E.
Qed.

(** Two slots share a file only when they are the same slot. *)
Lemma save_path_of_inj (base : string) (a b : Z) :
  save_path_of base a = save_path_of base b -> a = b.
Proof.
  unfold save_path_of. intros H.
  apply append_inj_l, append_inj_r in H. now apply str_inj.
Qed.

(** The reader looks at the world through the file at its path and the
    two decoders only. *)
Lemma open_save_file_with_fs (env : Env) (files : string -> outcome string)
    (path : string) :
  files path = env.(fs) path ->
  open_save_file (with_fs env files) path = open_save_file env path.
Proof.
  intros H. unfold open_save_file, open_. cbn [fs with_fs]. rewrite H.
  reflexivity.
Qed.

Lemma load_with_fs (env : Env) (files : string -> outcome string) (slot : Z) :
  files (save_path_of env.(SAVE_PATH) slot)
  = env.(fs) (save_path_of env.(SAVE_PATH) slot) ->
  load (with_fs env files) slot = load env slot.
Proof.
  intros H. unfold load. cbn [SAVE_PATH with_fs].
  now rewrite (open_save_file_with_fs env files _ H).
Qed.

(** The encoder that is picked, by its outcome. *)
Lemma encode_raises (env : Env) (w : Writer) (save_data : value) (e : exn) :
  (if (SAVE_METHOD env w =? "CBOR")%string
   then cbor_dumps_call env w save_data
   else w.(json_dumps) save_data) = Raise e ->
  encode env w save_data = Raise e.
Proof.
  unfold encode. destruct (SAVE_METHOD env w =? "CBOR")%string;
    intros ->; reflexivity.
Qed.

Lemma encode_json (env : Env) (w : Writer) (save_data : value) (text : string) :
  (SAVE_METHOD env w =? "CBOR")%string = false ->
  w.(json_dumps) save_data = Return text ->
  encode env w save_data = Return (Text text).
Proof.
  intros M E. unfold encode. now rewrite M, E.
Qed.

Lemma encode_cbor (env : Env) (w : Writer) (save_data : value) (bytes : string) :
  (SAVE_METHOD env w =? "CBOR")%string = true ->
  cbor_dumps_call env w save_data = Return bytes ->
  encode env w save_data = Return (Bytes bytes).
Proof.
  intros M E. unfold encode. now rewrite M, E.
Qed.

(** A save as JSON that the disk takes. *)
Lemma save_json (env : Env) (w : Writer) (save_data : value) (slot : Z)
    (text : string) :
  (SAVE_METHOD env w =? "CBOR")%string = false ->
  w.(json_dumps) save_data = Return text ->
  w.(open_w_raises) (save_path_of env.(SAVE_PATH) slot) = None ->
  w.(write_fails) (save_path_of env.(SAVE_PATH) slot) text = None ->
  save env w save_data slot
  = (Return tt, fs_update (save_path_of env.(SAVE_PATH) slot) text env.(fs)).
Proof.
  intros M E O W. unfold save. fold (save_path_of env.(SAVE_PATH) slot).
  now rewrite (encode_json _ _ _ _ M E), O, W.
Qed.

(** After [save] the files are the old ones, or the old ones with the
    slot's file replaced. *)
Lemma save_files (env : Env) (w : Writer) (save_data : value) (slot : Z) :
  snd (save env w save_data slot) = env.(fs) \/
  exists text,
    snd (save env w save_data slot)
    = fs_update (save_path_of env.(SAVE_PATH) slot) text env.(fs).
Proof.
  unfold save, save_path_of.
  destruct (encode env w save_data) as [[text | bytes] |]; [| | now left].
  - destruct (open_w_raises w _); [now left |].
    destruct (write_fails w _ text) as [[n e] |]; right; eexists; reflexivity.
  - destruct (open_w_raises w _); [now left |].
    right; eexists; reflexivity.
Qed.

(** X17. A record saved as JSON that the JSON decoder reads back, with a
    version that is not 0, is what [load] returns from the slot
    afterwards. *)
Theorem save_then_load (env : Env) (w : Writer) (sd : dict) (slot : Z)
    (text : string) (version : value) :
  (SAVE_METHOD env w =? "CBOR")%string = false ->
  w.(json_dumps) (VDict sd) = Return text ->
  env.(json_loads) text = Return (VDict sd) ->
  w.(open_w_raises) (save_path_of env.(SAVE_PATH) slot) = None ->
  w.(write_fails) (save_path_of env.(SAVE_PATH) slot) text = None ->
  dict_get "version" sd = Some version ->
  py_eq_int version 0 = false ->
  fst (save env w (VDict sd) slot) = Return tt /\
  load (after_save env w (VDict sd) slot) slot = Return (VDict sd).
Proof.
  intros M E D O W G N.
  assert (S := save_json env w (VDict sd) slot text M E O W).
  split; [now rewrite S |].
  unfold after_save. rewrite S. cbn [snd].
  unfold load.
  rewrite (open_save_file_json _ _ text (VDict sd)).
  - destruct sd as [| kv sd]; [discriminate G |].
    cbn [bind truthy]. exact (upgrade_save_skips _ _ G N).
  - cbn [fs with_fs SAVE_PATH]. unfold fs_update. now rewrite String.eqb_refl.
  - exact D.
Qed.

Lemma save_then_load_witness :
  fst (save january_world (plain_writer "JSON") (VDict march_save) 2) = Return tt /\
  load (after_save january_world (plain_writer "JSON") (VDict march_save) 2) 2
  = Return (VDict march_save).
Proof.
  apply (save_then_load january_world (plain_writer "JSON") march_save 2
           "written" (VInt 1)); reflexivity.
Defined.

(** X18. Saving to one slot leaves every other slot as it was: its file, and
    what [load] returns from it, whether the save went through or not. *)
Theorem save_leaves_other_slots (env : Env) (w : Writer) (save_data : value)
    (slot other : Z) :
  other <> slot ->
  (after_save env w save_data slot).(fs) (save_path_of env.(SAVE_PATH) other)
  = env.(fs) (save_path_of env.(SAVE_PATH) other) /\
  load (after_save env w save_data slot) other = load env other.
Proof.
  intros N.
  assert (F : snd (save env w save_data slot) (save_path_of env.(SAVE_PATH) other)
              = env.(fs) (save_path_of env.(SAVE_PATH) other)).
  { destruct (save_files env w save_data slot) as [-> | [text ->]];
      [reflexivity |].
    unfold fs_update.
    destruct (save_path_of (SAVE_PATH env) other
              =? save_path_of (SAVE_PATH env) slot)%string eqn:E;
      [| reflexivity].
    apply String.eqb_eq, save_path_of_inj in E. contradiction. }
  split; [exact F |]. unfold after_save. now apply load_with_fs.
Qed.

Lemma save_leaves_other_slots_witness :
  (after_save january_world (plain_writer "JSON") (VDict march_save) 2).(fs)
    (save_path_of january_world.(SAVE_PATH) 1)
  = january_world.(fs) (save_path_of january_world.(SAVE_PATH) 1) /\
  load (after_save january_world (plain_writer "JSON") (VDict march_save) 2) 1
  = load january_world 1.
Proof.
  apply (save_leaves_other_slots january_world (plain_writer "JSON")
           (VDict march_save) 2 1). discriminate.
Defined.

(** X19. The record is encoded before the file is opened: when the encoder
    raises, [save] raises the same and no file has changed, so every
    slot still loads as before. *)
Theorem save_unencodable_keeps_files (env : Env) (w : Writer)
    (save_data : value) (slot : Z) (e : exn) :
  (if (SAVE_METHOD env w =? "CBOR")%string
   then cbor_dumps_call env w save_data
   else w.(json_dumps) save_data) = Raise e ->
  save env w save_data slot = (Raise e, env.(fs)) /\
  forall any, load (after_save env w save_data slot) any = load env any.
Proof.
  intros E.
  assert (S : save env w save_data slot = (Raise e, env.(fs)))
    by (unfold save; now rewrite (encode_raises _ _ _ _ E)).
  split; [exact S |]. intros any. unfold after_save. rewrite S.
  now apply load_with_fs.
Qed.

Lemma save_unencodable_keeps_files_witness :
  save january_world refusing_writer (VDict march_save) 1
  = (Raise TypeError, january_world.(fs)) /\
  forall any,
    load (after_save january_world refusing_writer (VDict march_save) 1) any
    = load january_world any.
Proof.
  apply (save_unencodable_keeps_files january_world refusing_writer
           (VDict march_save) 1 TypeError). reflexivity.
Defined.

(** When the write of the JSON text stops part of the way, the slot is
    left with the part that got through: the save that was there before
    is gone. *)
Lemma save_interrupted_loses_old_save (env : Env) (w : Writer)
    (save_data : value) (slot : Z) (text : string) (n : nat) (e : exn) :
  (SAVE_METHOD env w =? "CBOR")%string = false ->
  w.(json_dumps) save_data = Return text ->
  w.(open_w_raises) (save_path_of env.(SAVE_PATH) slot) = None ->
  w.(write_fails) (save_path_of env.(SAVE_PATH) slot) text = Some (n, e) ->
  fst (save env w save_data slot) = Raise e /\
  (after_save env w save_data slot).(fs) (save_path_of env.(SAVE_PATH) slot)
  = Return (substring 0 n text).
Proof.
  intros M E O W.
  assert (S : save env w save_data slot
              = (Raise e,
                 fs_update (save_path_of env.(SAVE_PATH) slot)
                   (substring 0 n text) env.(fs))).
  { unfold save. fold (save_path_of env.(SAVE_PATH) slot).
    now rewrite (encode_json _ _ _ _ M E), O, W. }
  unfold after_save. rewrite S. split; [reflexivity |].
  cbn [fs with_fs snd]. unfold fs_update. now rewrite String.eqb_refl.
Qed.

(** X20. A save with the CBOR method does not go through.  [cbor.dumps]
    gives bytes and the file is opened as a text file, so [f.write]
    raises [TypeError]; by then [open(save_path, 'w')] has emptied the
    file, and the slot is left with an empty file whatever it held. *)
Theorem cbor_save_fails (env : Env) (w : Writer) (save_data : value)
    (slot : Z) (bytes : string) :
  (SAVE_METHOD env w =? "CBOR")%string = true ->
  cbor_dumps_call env w save_data = Return bytes ->
  w.(open_w_raises) (save_path_of env.(SAVE_PATH) slot) = None ->
  fst (save env w save_data slot) = Raise TypeError /\
  (after_save env w save_data slot).(fs) (save_path_of env.(SAVE_PATH) slot)
  = Return "".
Proof.
  intros M E O.
  assert (S : save env w save_data slot
              = (Raise TypeError,
                 fs_update (save_path_of env.(SAVE_PATH) slot) "" env.(fs))).
  { unfold save. fold (save_path_of env.(SAVE_PATH) slot).
    now rewrite (encode_cbor _ _ _ _ M E), O. }
  unfold after_save. rewrite S. split; [reflexivity |].
  cbn [fs with_fs snd]. unfold fs_update. now rewrite String.eqb_refl.
Qed.

Lemma cbor_save_fails_witness :
  fst (save january_world (plain_writer "CBOR") (VDict march_save) 1)
  = Raise TypeError /\
  (after_save january_world (plain_writer "CBOR") (VDict march_save) 1).(fs)
    (save_path_of january_world.(SAVE_PATH) 1)
  = Return "".
Proof.
  apply (cbor_save_fails january_world (plain_writer "CBOR")
           (VDict march_save) 1 "binary"); reflexivity.
Defined.

(** X21. When [import cbor] failed, the save method is JSON whatever the
    configuration asks for: the record is written as the JSON encoder
    gives it. *)
Theorem save_without_cbor_is_json (env : Env) (w : Writer) (save_data : value)
    (slot : Z) (text : string) :
  env.(cbor_loads) = None ->
  w.(json_dumps) save_data = Return text ->
  w.(open_w_raises) (save_path_of env.(SAVE_PATH) slot) = None ->
  w.(write_fails) (save_path_of env.(SAVE_PATH) slot) text = None ->
  save env w save_data slot
  = (Return tt, fs_update (save_path_of env.(SAVE_PATH) slot) text env.(fs)).
Proof.
  intros C E O W. apply save_json; try assumption.
  unfold SAVE_METHOD. now rewrite C.
Qed.

Lemma save_without_cbor_is_json_witness :
  save no_cbor_world (plain_writer "CBOR") (VDict march_save) 2
  = (Return tt,
     fs_update (save_path_of no_cbor_world.(SAVE_PATH) 2) "written"
       no_cbor_world.(fs)).
Proof.
  apply (save_without_cbor_is_json no_cbor_world (plain_writer "CBOR")
           (VDict march_save) 2 "written"); reflexivity.
Defined.

(** ** [get_index_of_latest_save] *)

Lemma datetime_ltb_irrefl (a : datetime) : datetime_ltb a a = false.
Proof. apply lex_ltb_irrefl. Qed.

Lemma datetime_ltb_trans (a b c : datetime) :
  datetime_ltb a b = true -> datetime_ltb b c = true -> datetime_ltb a c = true.
Proof. apply lex_ltb_trans. Qed.

Lemma datetime_ltb_cotrans (a b c : datetime) :
  datetime_ltb c a = true -> datetime_ltb c b = true \/ datetime_ltb b a = true.
Proof. apply lex_ltb_cotrans. Qed.

(** Derive what follows from the comparisons at hand until two of them
    clash. *)
Ltac order_facts :=
  repeat match goal with
  | H : datetime_ltb ?a ?a = true |- _ =>
      rewrite datetime_ltb_irrefl in H; discriminate H
  | H1 : datetime_ltb ?a ?b = true, H2 : datetime_ltb ?a ?b = false |- _ =>
      congruence
  | H1 : datetime_ltb ?a ?b = true, H2 : datetime_ltb ?b ?c = true |- _ =>
      lazymatch goal with
      | _ : datetime_ltb a c = true |- _ => fail
      | _ => pose proof (datetime_ltb_trans _ _ _ H1 H2)
      end
  | H1 : datetime_ltb ?c ?a = true, H2 : datetime_ltb ?c ?b = false |- _ =>
      lazymatch goal with
      | _ : datetime_ltb b a = true |- _ => fail
      | _ => assert (datetime_ltb b a = true)
               by (destruct (datetime_ltb_cotrans a b c H1); congruence)
      end
  | H1 : datetime_ltb ?c ?a = true, H2 : datetime_ltb ?b ?a = false |- _ =>
      lazymatch goal with
      | _ : datetime_ltb c b = true |- _ => fail
      | _ => assert (datetime_ltb c b = true)
               by (destruct (datetime_ltb_cotrans a b c H1); congruence)
      end
  end.

Ltac order_clash := try congruence; order_facts; congruence.

Ltac order :=
  first
    [ assumption
    | match goal with
      | |- datetime_ltb ?x ?y = _ =>
          destruct (datetime_ltb x y) eqn:?;
          first [reflexivity | discriminate | exfalso; order_clash]
      end ].

Lemma scan_slot_by_slot_time (env : Env) (times : list (Z * datetime))
    (slot_index : Z) :
  scan_slot env times slot_index
  = (found <- slot_time env slot_index ;;
     Return (times ++ slot_entry slot_index found)%list).
Proof.
  unfold scan_slot, slot_time.
  destruct (open_save_file env _) as [save_data |]; [cbn [bind] | reflexivity].
  destruct (negb (is_None save_data)).
  - destruct (py_getitem save_data "time") as [time |]; [cbn [bind] | reflexivity].
    destruct (strptime time); reflexivity.
  - cbn [bind slot_entry]. now rewrite app_nil_r.
Qed.

(** The finder in terms of what the three slots hold. *)
Lemma latest_by_slot_times (env : Env) :
  get_index_of_latest_save env
  = (e0 <- slot_time env 0 ;;
     e1 <- slot_time env 1 ;;
     e2 <- slot_time env 2 ;;
     match (slot_entry 0 e0 ++ slot_entry 1 e1 ++ slot_entry 2 e2)%list with
     | first :: rest => Return (Some (fst (max_by_time first rest)))
     | [] => Return None
     end).
Proof.
  rewrite latest_unfold, !scan_slot_by_slot_time.
  destruct (slot_time env 0) as [e0 |]; [cbn [bind] | reflexivity].
  rewrite scan_slot_by_slot_time.
  destruct (slot_time env 1) as [e1 |]; [cbn [bind] | reflexivity].
  rewrite scan_slot_by_slot_time.
  destruct (slot_time env 2) as [e2 |]; [cbn [bind] | reflexivity].
  now rewrite <- app_assoc.
Qed.

Lemma slot_time_none (env : Env) (slot_index : Z) :
  slot_time env slot_index = Return None
  <-> open_save_file env (save_path_of env.(SAVE_PATH) (slot_index + 1))
      = Return VNone.
Proof.
  unfold slot_time.
  destruct (open_save_file env _) as [save_data |]; cbn [bind].
  - destruct save_data; cbn [is_None negb]; split; try discriminate;
      try reflexivity; intros H.
    all: destruct (py_getitem _ "time") as [time |]; cbn [bind] in H;
      [destruct (strptime time) | ]; discriminate H.
  - split; discriminate.
Qed.

(** X22. The finder answers [None] exactly when the reader returns [None]
    for each of the three slots. *)
Theorem latest_none_iff (env : Env) :
  get_index_of_latest_save env = Return None <->
  (open_save_file env (save_path_of env.(SAVE_PATH) 1) = Return VNone /\
   open_save_file env (save_path_of env.(SAVE_PATH) 2) = Return VNone /\
   open_save_file env (save_path_of env.(SAVE_PATH) 3) = Return VNone).
Proof.
  change 1 with (0 + 1) at 1. change 2 with (1 + 1) at 1.
  change 3 with (2 + 1) at 1.
  rewrite <- !slot_time_none, latest_by_slot_times.
  destruct (slot_time env 0) as [[a |] |], (slot_time env 1) as [[b |] |],
    (slot_time env 2) as [[c |] |];
    cbn [bind slot_entry app];
    (split; [intros H | intros (H0 & H1 & H2)]);
    try discriminate; now repeat split.
Qed.

(** X23. The finder returns exactly when the scan meets no error in any of
    the three slots: a slot whose record has no [time], or a [time] that
    does not parse, is not passed over. *)
Theorem latest_returns_iff (env : Env) :
  (exists r, get_index_of_latest_save env = Return r) <->
  ((exists e, slot_time env 0 = Return e) /\
   (exists e, slot_time env 1 = Return e) /\
   (exists e, slot_time env 2 = Return e)).
Proof.
  rewrite latest_by_slot_times.
  destruct (slot_time env 0) as [e0 |]; cbn [bind];
    [| split; [intros [r H] | intros ([x H] & _)]; discriminate H].
  destruct (slot_time env 1) as [e1 |]; cbn [bind];
    [| split; [intros [r H] | intros (_ & [x H] & _)]; discriminate H].
  destruct (slot_time env 2) as [e2 |]; cbn [bind];
    [| split; [intros [r H] | intros (_ & _ & [x H])]; discriminate H].
  split; [intros _; repeat split; eauto |]. intros _.
  destruct (slot_entry 0 e0 ++ slot_entry 1 e1 ++ slot_entry 2 e2)%list; eauto.
Qed.

(** X24. When the finder answers an index, that slot holds a save, no slot
    holds a later one, and every slot before it holds a strictly earlier
    one: among saves of the same time the lowest slot is the answer. *)
Theorem latest_is_first_greatest (env : Env) (i : Z) :
  get_index_of_latest_save env = Return (Some i) ->
  exists dt,
    (i = 0 \/ i = 1 \/ i = 2) /\
    slot_time env i = Return (Some dt) /\
    forall j dt',
      (j = 0 \/ j = 1 \/ j = 2) ->
      slot_time env j = Return (Some dt') ->
      datetime_ltb dt dt' = false /\
      (j < i -> datetime_ltb dt' dt = true).
Proof.
  rewrite latest_by_slot_times.
  destruct (slot_time env 0) as [e0 |] eqn:S0; [cbn [bind] | discriminate].
  destruct (slot_time env 1) as [e1 |] eqn:S1; [cbn [bind] | discriminate].
  destruct (slot_time env 2) as [e2 |] eqn:S2; [cbn [bind] | discriminate].
  destruct e0 as [a |], e1 as [b |], e2 as [c |];
    cbn [slot_entry app max_by_time fst snd]; try discriminate;
    repeat match goal with
           | |- context [if datetime_ltb ?x ?y then _ else _] =>
               is_var x; is_var y;
               destruct (datetime_ltb x y) eqn:?; cbn [fst snd]
           end;
    intros [= <-]; eexists; (split; [tauto |]);
    (split; [eassumption |]);
    intros j dt' [-> | [-> | ->]] Hj;
    match type of Hj with
    | slot_time env 0 = _ => rewrite S0 in Hj
    | slot_time env 1 = _ => rewrite S1 in Hj
    | slot_time env 2 = _ => rewrite S2 in Hj
    end;
    try discriminate Hj; injection Hj as <-;
    (split; [order | intros L; try lia; order]).
Qed.

Lemma latest_is_first_greatest_witness :
  exists dt,
    (0 = 0 \/ 0 = 1 \/ 0 = 2) /\
    slot_time tie_world 0 = Return (Some dt) /\
    forall j dt',
      (j = 0 \/ j = 1 \/ j = 2) ->
      slot_time tie_world j = Return (Some dt') ->
      datetime_ltb dt dt' = false /\
      (j < 0 -> datetime_ltb dt' dt = true).
Proof.
  apply (latest_is_first_greatest tie_world 0). reflexivity.
Defined.

Lemma slot_time_with_fs (env : Env) (files : string -> outcome string)
    (slot_index : Z) :
  files (save_path_of env.(SAVE_PATH) (slot_index + 1))
  = env.(fs) (save_path_of env.(SAVE_PATH) (slot_index + 1)) ->
  slot_time (with_fs env files) slot_index = slot_time env slot_index.
Proof.
  intros H. unfold slot_time. cbn [SAVE_PATH with_fs].
  now rewrite (open_save_file_with_fs env files _ H).
Qed.

(** X25. Saving makes the slot the latest one: after a record is saved as
    JSON with a time later than that of every save in the other two
    slots, the finder answers the index of the slot that was written,
    its number less one. *)
Theorem save_makes_latest (env : Env) (w : Writer) (sd : dict) (slot : Z)
    (text : string) (time : value) (dt : datetime) :
  (slot = 1 \/ slot = 2 \/ slot = 3) ->
  (SAVE_METHOD env w =? "CBOR")%string = false ->
  w.(json_dumps) (VDict sd) = Return text ->
  env.(json_loads) text = Return (VDict sd) ->
  w.(open_w_raises) (save_path_of env.(SAVE_PATH) slot) = None ->
  w.(write_fails) (save_path_of env.(SAVE_PATH) slot) text = None ->
  dict_get "time" sd = Some time ->
  strptime time = Return dt ->
  (forall j, (j = 0 \/ j = 1 \/ j = 2) -> j <> slot - 1 ->
             slot_time env j = Return None \/
             exists dt', slot_time env j = Return (Some dt') /\
                         datetime_ltb dt' dt = true) ->
  get_index_of_latest_save (after_save env w (VDict sd) slot)
  = Return (Some (slot - 1)).
Proof.
  intros R M E D O W G P Others.
  assert (S := save_json env w (VDict sd) slot text M E O W).
  unfold after_save. rewrite S. cbn [snd].
  set (files := fs_update (save_path_of env.(SAVE_PATH) slot) text env.(fs)).
  assert (Here : slot_time (with_fs env files) (slot - 1) = Return (Some dt)).
  { unfold slot_time. cbn [SAVE_PATH with_fs].
    replace (slot - 1 + 1) with slot by lia.
    rewrite (open_save_file_json _ _ text (VDict sd)).
    - cbn [bind is_None negb py_getitem]. rewrite G. cbn [bind]. now rewrite P.
    - cbn [fs with_fs]. unfold files, fs_update. now rewrite String.eqb_refl.
    - exact D. }
  assert (There : forall j, j <> slot - 1 ->
                            slot_time (with_fs env files) j = slot_time env j).
  { intros j N. apply slot_time_with_fs. unfold files, fs_update.
    destruct (save_path_of (SAVE_PATH env) (j + 1)
              =? save_path_of (SAVE_PATH env) slot)%string eqn:Q;
      [| reflexivity].
    apply String.eqb_eq, save_path_of_inj in Q. lia. }
  rewrite latest_by_slot_times.
  destruct R as [-> | [-> | ->]].
  - change (1 - 1) with 0 in *.
    rewrite Here, (There 1), (There 2) by lia.
    destruct (Others 1) as [-> | (b & -> & Lb)]; [tauto | lia | |];
      (destruct (Others 2) as [-> | (c & -> & Lc)]; [tauto | lia | |]);
      cbn [bind slot_entry app max_by_time fst snd];
      repeat match goal with
             | |- context [if datetime_ltb ?x ?y then _ else _] =>
                 is_var x; is_var y;
                 destruct (datetime_ltb x y) eqn:?; cbn [fst snd]
             end;
      first [reflexivity | exfalso; order_clash].
  - change (2 - 1) with 1 in *.
    rewrite Here, (There 0), (There 2) by lia.
    destruct (Others 0) as [-> | (a & -> & La)]; [tauto | lia | |];
      (destruct (Others 2) as [-> | (c & -> & Lc)]; [tauto | lia | |]);
      cbn [bind slot_entry app max_by_time fst snd];
      repeat match goal with
             | |- context [if datetime_ltb ?x ?y then _ else _] =>
                 is_var x; is_var y;
                 destruct (datetime_ltb x y) eqn:?; cbn [fst snd]
             end;
      first [reflexivity | exfalso; order_clash].
  - change (3 - 1) with 2 in *.
    rewrite Here, (There 0), (There 1) by lia.
    destruct (Others 0) as [-> | (a & -> & La)]; [tauto | lia | |];
      (destruct (Others 1) as [-> | (b & -> & Lb)]; [tauto | lia | |]);
      cbn [bind slot_entry app max_by_time fst snd];
      repeat match goal with
             | |- context [if datetime_ltb ?x ?y then _ else _] =>
                 is_var x; is_var y;
                 destruct (datetime_ltb x y) eqn:?; cbn [fst snd]
             end;
      first [reflexivity | exfalso; order_clash].
Qed.

Lemma save_makes_latest_witness :
  get_index_of_latest_save
    (after_save january_world (plain_writer "JSON") (VDict march_save) 2)
  = Return (Some (2 - 1)).
Proof.
  apply (save_makes_latest january_world (plain_writer "JSON") march_save 2
           "written" (VStr "2024-03-15 09:30")
           {| year := 2024; month := 3; day := 15; hour := 9; minute := 30;
              second := 0; microsecond := 0 |});
    try reflexivity.
  - right. left. reflexivity.
  - intros j [-> | [-> | ->]] N.
    + right. eexists. split; reflexivity.
    + exfalso. apply N. reflexivity.
    + left. reflexivity.
Defined.

(** ** Written times are read back *)

(** Go through the values of an integer that is known to lie between
    two numerals. *)
Ltac each_value n :=
  destruct n as [| n | n]; try lia;
  repeat (destruct n as [n | n |]; try lia).

Lemma then_head {A B C : Type} (p : matcher A) (q : matcher B)
    (f : A -> B -> C) (s : string) (a : A) (r : string) (b : B) (r' : string) :
  (exists tl, p s = (a, r) :: tl) ->
  (exists tl, q r = (b, r') :: tl) ->
  exists tl, then_ p q f s = (f a b, r') :: tl.
Proof.
  intros [tl1 H1] [tl2 H2]. unfold then_. rewrite H1. cbn [flat_map fst snd].
  rewrite H2. cbn [map app fst snd]. eauto.
Qed.

(** One step into a sequence of two patterns: the first matches with
    [a], the second with [b]. *)
Ltac head_step a b :=
  match goal with
  | |- exists tl, then_ ?p ?q ?f ?s = (_, ?r') :: tl =>
      refine (then_head p q f s a _ b r' _ _)
  end.

Lemma lit_head (c : ascii) (rest : string) :
  exists tl, lit c (String c rest) = (tt, rest) :: tl.
Proof.
  unfold lit. rewrite Ascii.eqb_refl. eauto.
Qed.

Lemma two_digits_text (n : Z) (rest : string) :
  0 <= n <= 99 ->
  two_digits 0 9 0 9 (two_digit_text n rest) = [(n, rest)].
Proof.
  intros H. each_value n; reflexivity.
Qed.

Lemma re_Y_text (y : Z) (rest : string) :
  1000 <= y <= 9999 ->
  exists tl,
    re_Y (two_digit_text (y / 100) (two_digit_text (y mod 100) rest))
    = (y, rest) :: tl.
Proof.
  intros H. unfold re_Y.
  assert (H1 : 0 <= y / 100 <= 99).
  { split; [apply Z.div_pos; lia |].
    apply Z.lt_succ_r, Z.div_lt_upper_bound; lia. }
  assert (H2 : 0 <= y mod 100 <= 99) by (pose proof (Z.mod_pos_bound y 100); lia).
  assert (E : 100 * (y / 100) + y mod 100 = y)
    by (symmetry; apply Z.div_mod; lia).
  destruct (then_head (two_digits 0 9 0 9) (two_digits 0 9 0 9)
              (fun hi lo => 100 * hi + lo)
              (two_digit_text (y / 100) (two_digit_text (y mod 100) rest))
              (y / 100) (two_digit_text (y mod 100) rest) (y mod 100) rest)
    as [tl T].
  - exists []. exact (two_digits_text _ _ H1).
  - exists []. exact (two_digits_text _ _ H2).
  - cbv beta in T. rewrite E in T. exists tl. exact T.
Qed.

Lemma re_m_text (n : Z) (rest : string) :
  1 <= n <= 12 -> exists tl, re_m (two_digit_text n rest) = (n, rest) :: tl.
Proof.
  intros H. each_value n; eexists; reflexivity.
Qed.

Lemma re_d_text (n : Z) (rest : string) :
  1 <= n <= 31 -> exists tl, re_d (two_digit_text n rest) = (n, rest) :: tl.
Proof.
  intros H. each_value n; eexists; reflexivity.
Qed.

Lemma re_H_text (n : Z) (rest : string) :
  0 <= n <= 23 -> exists tl, re_H (two_digit_text n rest) = (n, rest) :: tl.
Proof.
  intros H. each_value n; eexists; reflexivity.
Qed.

Lemma re_M_text (n : Z) (rest : string) :
  0 <= n <= 59 -> exists tl, re_M (two_digit_text n rest) = (n, rest) :: tl.
Proof.
  intros H. each_value n; eexists; reflexivity.
Qed.

Lemma spaces_plus_text (n : Z) (rest : string) :
  0 <= n <= 23 ->
  exists tl,
    spaces_plus (String " " (two_digit_text n rest))
    = (tt, two_digit_text n rest) :: tl.
Proof.
  intros H. each_value n; eexists; reflexivity.
Qed.

Lemma days_in_month_bound (y m : Z) : days_in_month y m <= 31.
Proof.
  unfold days_in_month.
  destruct (m =? 2); [destruct (is_leap y); lia |].
  destruct ((m =? 4) || (m =? 6) || (m =? 9) || (m =? 11))%bool; lia.
Qed.

(** The text [strftime] gives for a time of the calendar is parsed by
    [strptime] to that time without its seconds and microseconds. *)
Lemma strptime_of_strftime (dt : datetime) :
  on_calendar dt = true ->
  strptime (VStr (strftime dt)) = Return (cut_to_minute dt).
Proof.
  destruct dt as [y mo d h mi sec us]. unfold on_calendar, cut_to_minute.
  cbn [year month day hour minute second microsecond].
  rewrite !andb_true_iff, !Z.leb_le.
  intros (((((((((Y1 & Y2) & M1) & M2) & D1) & D2) & H1) & H2) & I1) & I2).
  pose proof (days_in_month_bound y mo) as D3.
  assert (R : exists tl,
             time_format_regex
               (strftime {| year := y; month := mo; day := d;
                            hour := h; minute := mi;
                            second := sec; microsecond := us |})
             = ({| year := y; month := mo; day := d; hour := h; minute := mi;
                   second := 0; microsecond := 0 |},
                "") :: tl).
  { unfold time_format_regex, strftime. cbv zeta.
    cbn [year month day hour minute].
    head_step y (mo, (d, (h, mi))); [apply re_Y_text; lia |].
    head_step tt (mo, (d, (h, mi))); [apply lit_head |].
    head_step mo (d, (h, mi)); [apply re_m_text; lia |].
    head_step tt (d, (h, mi)); [apply lit_head |].
    head_step d (h, mi); [apply re_d_text; lia |].
    head_step tt (h, mi); [apply spaces_plus_text; lia |].
    head_step h mi; [apply re_H_text; lia |].
    head_step tt mi; [apply lit_head |].
    apply re_M_text; lia. }
  destruct R as [tl R]. unfold strptime. rewrite R.
  cbn [year month day].
  replace (1 <=? y) with true by (symmetry; apply Z.leb_le; lia).
  replace (d <=? days_in_month y mo) with true by (symmetry; now apply Z.leb_le).
  reflexivity.
Qed.

(** X26. The time that [get_save_data] stamps on a record, the clock
    formatted with [TIME_FORMAT], is read back by the finder's
    [strptime] as the clock's time cut to the minute: the seconds and the
    microseconds of the clock are lost, and the time comes back as it
    was only when it had none. *)
Theorem written_time_read_back (state : dict) (screenshot : string)
    (width height : Z) (now : datetime) :
  on_calendar now = true ->
  let written := get_save_data state screenshot width height (strftime now) in
  (time <- py_getitem (VDict written) "time" ;; strptime time)
  = Return (cut_to_minute now) /\
  (cut_to_minute now = now <-> now.(second) = 0 /\ now.(microsecond) = 0).
Proof.
  intros C written. split.
  - unfold written, get_save_data, py_getitem.
    rewrite dict_get_set_other by reflexivity. rewrite dict_get_set_same.
    cbn [bind]. now apply strptime_of_strftime.
  - destruct now as [y mo d h mi sec us]. unfold cut_to_minute.
    cbn [year month day hour minute second microsecond]. split.
    + intros [= <- <-]. now split.
    + intros [-> ->]. reflexivity.
Qed.

Lemma written_time_read_back_witness :
  let now := {| year := 2024; month := 2; day := 29; hour := 23; minute := 59;
                second := 58; microsecond := 123456 |} in
  let written := get_save_data bare_record "image" 4 3 (strftime now) in
  (time <- py_getitem (VDict written) "time" ;; strptime time)
  = Return (cut_to_minute now) /\
  (cut_to_minute now = now <-> now.(second) = 0 /\ now.(microsecond) = 0).
Proof.
  apply written_time_read_back. reflexivity.
Defined.
